(** * Fabrication: rotation correction, layer plot plan and placement export

    A shallow embedding of [fabrication.py] (class [Fabrication]) and the
    properties its specification states about it.

    Conventions of the embedding:
    - Python [int] is [Z]. A Python [float] has two readings. In
      [fix_rotation], [rotate] and the placement rows it is an exact
      rational [Q]: what is proved of them is the structure of the code
      (which rule is applied, what is written, in what order) and its
      arithmetic where that arithmetic is exact. In [fix_rotation_b64] and
      [rotate_b64] it is a binary64 number with the rounding of Python's
      [+], [-], [/] and [%]: what depends on rounding is stated of these;
    - [str] is [string]; a list of tuples is a [list] of pairs or records;
    - an exception is the [Raise] branch of [result];
    - the [pcbnew] engine, the regular-expression engine and the helper
      module are not part of [fabrication.py]: the engine is the class
      [Pcbnew], the helpers are modelled from the specification. *)

From Stdlib Require Import ZArith QArith Qround Lqa Ascii String.
From Stdlib Require Import PrimFloat FloatOps SpecFloat.
From Stdlib Require Uint63.
From stdpp Require Import gmap strings list pretty.

Open Scope Z_scope.

(** ** Python arithmetic and truthiness *)

(** [x % 360] in exact arithmetic: the result has the sign of the divisor.
    The binary64 operation, with its rounding, is [py_mod360] below. *)
Definition pymod360 (x : Q) : Q :=
  (x - inject_Z (360 * Qfloor (x / 360)))%Q.

(** [int(correction)] on an integer correction. *)
Definition int (correction : Z) : Z := correction.

(** Truth value of a nullable string ([None] and [""] are false). *)
Definition truthy (v : option string) : bool :=
  match v with
  | None => false
  | Some s => negb (String.eqb s "")
  end.

(** ** Exceptions and logging *)

Inductive exn :=
  | re_error (pattern : string).

Inductive result (A : Type) :=
  | Ok (a : A)
  | Raise (e : exn).
Arguments Ok {A} a.
Arguments Raise {A} e.

Inductive log_arg :=
  | AStr (s : string)
  | AInt (z : Z).

Inductive log_level := INFO | ERROR.

Record log_record := LogRecord {
  log_lvl : log_level;
  log_fmt : string;
  log_args : list log_arg
}.

(** ** The board engine's read-only view *)

Record point := Point { px : Z; py : Z }.

Definition point_sub (a b : point) : point :=
  Point (px a - px b) (py a - py b).

Record box := Box { box_pos : point; box_size : point }.

(** [GetOrientation()] answers an angle object with [AsDegrees()] from
    KiCad 6.99 on, and a plain number of tenths of a degree before. *)
Inductive orientation :=
  | EdaAngle (degrees : Q)
  | Decidegrees (tenths : Q).

Record footprint := Footprint {
  GetReference : string;
  GetValue : string;
  GetLibItemName : string;
  GetOrientation : orientation;
  GetLayer : Z;
  GetPosition : point;
  GetBoundingBox : box;
  is_surface_mount : bool;
  excluded_from_placement : bool
}.

Record board := Board {
  GetFileName : string;
  GetFootprints : list footprint;
  GetCopperLayerCount : Z;
  GetAuxOrigin : point
}.

(** What [fabrication.py] imports from [pcbnew] and from [re]. *)
Class Pcbnew := {
  F_Cu : Z; F_SilkS : Z; F_Mask : Z; F_Paste : Z;
  B_Cu : Z; B_SilkS : Z; B_Mask : Z; B_Paste : Z;
  Edge_Cuts : Z; Cmts_User : Z;
  (** internal units to millimetres *)
  ToMM : Z -> Q;
  (** centre of a bounding box *)
  GetCenter : box -> point;
  (** [re.search(pattern, s)]: [None] when the pattern does not compile
      ([re.error]), otherwise whether some substring of [s] matches. *)
  re_search : string -> string -> option bool
}.

(** ** The helper module *)

(** Modelled from the spec: [helpers.get_smd] is missing; the footprint
    view carries [is-surface-mount]. *)
Definition get_smd (fp : footprint) : bool := is_surface_mount fp.

(** Modelled from the spec: [helpers.get_exclude_from_pos] is missing; the
    footprint view carries [excluded-from-placement]. *)
Definition get_exclude_from_pos (fp : footprint) : bool :=
  excluded_from_placement fp.

(** Modelled from the spec: [helpers.get_footprint_by_ref] is missing; it
    locates the footprints whose reference designator is [ref], zero or
    more of them, in board order. *)
Definition get_footprint_by_ref (b : board) (ref : string) : list footprint :=
  List.filter (fun fp => String.eqb (GetReference fp) ref) (GetFootprints b).

(** ** The plugin side: settings, library, store *)

Record part := Part {
  part_0 : string;          (* reference *)
  part_1 : string;          (* value *)
  part_2 : string;          (* footprint *)
  part_3 : string;
  part_4 : option string    (* LCSC number *)
}.

Record parent := Parent {
  settings : gmap string (gmap string bool);
  get_all_correction_data : list (string * Z);
  read_pos_parts : list part;
  read_bom_parts : list (list string)
}.

(** [settings.get("gerber", {}).get(key, True)] *)
Definition gerber_setting (p : parent) (key : string) : bool :=
  default true (default ∅ (settings p !! "gerber") !! key).

(** ** The [Fabrication] object *)

Record Fabrication := MkFabrication {
  self_board : board;
  corrections : list (string * Z);
  path : string;
  filename : string;
  outputdir : string;
  gerberdir : string
}.

Section Rotation.
Context `{Pcbnew}.

(** [original.AsDegrees()], or [original / 10] when the attribute is
    missing. *)
Definition as_degrees (original : orientation) : Q :=
  match original with
  | EdaAngle d => d
  | Decidegrees t => (t / 10)%Q
  end.

(** [Fabrication.rotate] *)
Definition rotate (fp : footprint) (rotation : Q) (correction : Z)
  : Q * list log_record :=
  let args := [AStr (GetReference fp); AStr (GetValue fp);
               AStr (GetLibItemName fp); AInt correction] in
  if GetLayer fp =? 0 then
    (pymod360 (rotation + inject_Z (int correction)),
     [LogRecord INFO
        "Fixed rotation of %s (%s / %s) on Top Layer by %d degrees" args])
  else
    (pymod360 (rotation - inject_Z (int correction)),
     [LogRecord INFO
        "Fixed rotation of %s (%s / %s) on Bottom Layer by %d degrees" args]).

(** One [for regex, correction in self.corrections] loop of
    [fix_rotation]: the correction of the first rule that matches
    [subject]; a pattern that does not compile raises where it is reached. *)
Fixpoint scan (subject : string) (rules : list (string * Z))
  : result (option Z) :=
  match rules with
  | [] => Ok None
  | (regex, correction) :: rest =>
      match re_search regex subject with
      | None => Raise (re_error regex)
      | Some true => Ok (Some correction)
      | Some false => scan subject rest
      end
  end.

(** [Fabrication.fix_rotation] *)
Definition fix_rotation (self : Fabrication) (fp : footprint)
  : result Q * list log_record :=
  let original := GetOrientation fp in
  let rotation := as_degrees original in
  let rotation :=
    if negb (GetLayer fp =? 0) then pymod360 (180 - rotation) else rotation in
  match scan (GetValue fp) (corrections self) with
  | Raise e => (Raise e, [])
  | Ok (Some correction) =>
      let (r, l) := rotate fp rotation correction in (Ok r, l)
  | Ok None =>
      match scan (GetLibItemName fp) (corrections self) with
      | Raise e => (Raise e, [])
      | Ok (Some correction) =>
          let (r, l) := rotate fp rotation correction in (Ok r, l)
      | Ok None => (Ok rotation, [])
      end
  end.

(** [Fabrication.get_position] *)
Definition get_position (fp : footprint) : point :=
  if get_smd fp then GetPosition fp
  else
    let bbox := GetBoundingBox fp in
    GetCenter bbox.

End Rotation.

(** ** Layer plot plan ([generate_geber]) *)

(** What the plot loop asks of the plot controller and its options. *)
Inductive plot_call :=
  | SetSkipPlotNPTH_Pads (skip : bool)
  | SetLayer (layer : Z)
  | OpenPlotfile (name : string) (label : string)
  | PlotLayer
  | ClosePlot.

Section Gerber.
Context `{Pcbnew}.

Definition plot_plan_top : list (string * Z * string) :=
  [ ("CuTop", F_Cu, "Top layer");
    ("SilkTop", F_SilkS, "Silk top");
    ("MaskTop", F_Mask, "Mask top");
    ("PasteTop", F_Paste, "Paste top") ].

Definition plot_plan_bottom : list (string * Z * string) :=
  [ ("CuBottom", B_Cu, "Bottom layer");
    ("SilkBottom", B_SilkS, "Silk top");
    ("MaskBottom", B_Mask, "Mask bottom");
    ("PasteBottom", B_Paste, "Paste bottom");
    ("EdgeCuts", Edge_Cuts, "Edges");
    ("VScore", Cmts_User, "V score cut") ].

(** The slice [l[-2:]]. *)
Definition last_two {A} (l : list A) : list A := drop (length l - 2) l.

(** [(f"CuIn{layer}", layer, f"Inner layer {layer}")] *)
Definition inner_entry (layer : Z) : string * Z * string :=
  ("CuIn" +:+ pretty layer, layer, "Inner layer " +:+ pretty layer).

(** The [plot_plan] built from [layer_count]; [range(1, layer_count - 1)]
    is [seqZ 1 (layer_count - 2)]. *)
Definition plot_plan (layer_count : Z) : list (string * Z * string) :=
  if layer_count =? 1 then plot_plan_top ++ last_two plot_plan_bottom
  else if layer_count =? 2 then plot_plan_top ++ plot_plan_bottom
  else plot_plan_top
       ++ map inner_entry (seqZ 1 (layer_count - 2))
       ++ plot_plan_bottom.

(** The skip-non-plated-holes option chosen for one entry. *)
Definition skip_npth (layer_info : string * Z * string) : bool :=
  layer_info.1.2 <=? B_Cu.

(** The [for layer_info in plot_plan] loop; [plotter] is the answer of
    [pctl.PlotLayer()] for a layer. *)
Fixpoint plot_layers (plotter : Z -> bool) (plan : list (string * Z * string))
  : list plot_call * list log_record :=
  match plan with
  | [] => ([], [])
  | layer_info :: rest =>
      let calls :=
        [ (if layer_info.1.2 <=? B_Cu
           then SetSkipPlotNPTH_Pads true else SetSkipPlotNPTH_Pads false);
          SetLayer layer_info.1.2;
          OpenPlotfile layer_info.1.1 layer_info.2;
          PlotLayer ] in
      let failed :=
        if plotter layer_info.1.2 then []
        else [LogRecord ERROR "Error plotting %s" [AStr layer_info.2]] in
      let logs :=
        failed
        ++ [LogRecord INFO "Successfully plotted %s" [AStr layer_info.2]] in
      let (calls', logs') := plot_layers plotter rest in
      (calls ++ calls', logs ++ logs')
  end.

(** [if not layer_count: layer_count = self.board.GetCopperLayerCount()] *)
Definition effective_layer_count (self : Fabrication) (layer_count : option Z)
  : Z :=
  match layer_count with
  | None => GetCopperLayerCount (self_board self)
  | Some n => if n =? 0 then GetCopperLayerCount (self_board self) else n
  end.

(** [Fabrication.generate_geber], from the layer count on: the plan, the
    plot loop and [ClosePlot]. The plot options set before the loop and
    the clearing of the Gerber directory do not enter the plan. *)
Definition generate_geber (self : Fabrication) (layer_count : option Z)
    (plotter : Z -> bool) : list plot_call * list log_record :=
  let layer_count := effective_layer_count self layer_count in
  let (calls, logs) := plot_layers plotter (plot_plan layer_count) in
  (calls ++ [ClosePlot], logs).

(** The skip flags in the order the loop sets them. *)
Definition skip_flags (calls : list plot_call) : list bool :=
  omap (fun c => match c with SetSkipPlotNPTH_Pads b => Some b | _ => None end)
       calls.

End Gerber.

(** ** Files and paths *)

Inductive cell :=
  | CStr (s : string)
  | CNum (q : Q).

(** The files on disk, each a list of CSV rows, and the log; the records
    of [logger.debug] are not kept. *)
Record world := World {
  files : gmap string (list (list cell));
  log : list log_record
}.

(** [open(p, "w")]: creates or truncates. *)
Definition open_w (p : string) (w : world) : world :=
  World (<[p := []]> (files w)) (log w).

(** [writer.writerow(r)] on the file opened at [p]. *)
Definition writerow (p : string) (r : list cell) (w : world) : world :=
  World (alter (fun rows => rows ++ [r]) p (files w)) (log w).

Definition emit (records : list log_record) (w : world) : world :=
  World (files w) (log w ++ records).

Fixpoint has_slash (s : string) : bool :=
  match s with
  | EmptyString => false
  | String c r => Ascii.eqb c "/"%char || has_slash r
  end.

Fixpoint all_slashes (s : string) : bool :=
  match s with
  | EmptyString => true
  | String c r => Ascii.eqb c "/"%char && all_slashes r
  end.

(** [s.rstrip("/")] *)
Fixpoint rstrip_slash (s : string) : string :=
  match s with
  | EmptyString => EmptyString
  | String c r =>
      if all_slashes (String c r) then EmptyString
      else String c (rstrip_slash r)
  end.

(** The cut of [posixpath.split] at the last slash: [(p[:i], p[i:])]. *)
Fixpoint cut_last_slash (p : string) : string * string :=
  match p with
  | EmptyString => (EmptyString, EmptyString)
  | String c r =>
      if has_slash r then
        let (h, t) := cut_last_slash r in (String c h, t)
      else if Ascii.eqb c "/"%char then (String c EmptyString, r)
      else (EmptyString, String c r)
  end.

(** [os.path.split] *)
Definition os_path_split (p : string) : string * string :=
  let (h, t) := cut_last_slash p in
  (if all_slashes h then h else rstrip_slash h, t).

Fixpoint ends_with_slash (s : string) : bool :=
  match s with
  | EmptyString => false
  | String c EmptyString => Ascii.eqb c "/"%char
  | String _ r => ends_with_slash r
  end.

(** [os.path.join(a, b)] *)
Definition os_path_join (a b : string) : string :=
  match b with
  | String "/"%char _ => b
  | _ =>
      if String.eqb a "" || ends_with_slash a then a +:+ b
      else a +:+ "/" +:+ b
  end.

(** [s.split(".")[0]] *)
Fixpoint before_dot (s : string) : string :=
  match s with
  | EmptyString => EmptyString
  | String c r => if Ascii.eqb c "."%char then EmptyString else String c (before_dot r)
  end.

(** [Fabrication.__init__] with [create_folders]; directories are not
    tracked in [world]. *)
Definition Fabrication_init (b : board) : Fabrication :=
  let (path, filename) := os_path_split (GetFileName b) in
  {| self_board := b;
     corrections := [];
     path := path;
     filename := filename;
     outputdir := os_path_join (os_path_join path "jlcpcb") "production_files";
     gerberdir := os_path_join (os_path_join path "jlcpcb") "gerber" |}.

(** ** Placement export ([generate_cpl]) *)

Definition cpl_header : list cell :=
  [CStr "Designator"; CStr "Val"; CStr "Package"; CStr "Mid X"; CStr "Mid Y";
   CStr "Rotation"; CStr "Layer"].

Section Placement.
Context `{Pcbnew}.

(** The row written for [part] and [fp] once the rotation is known. *)
Definition cpl_row (aux_orgin : point) (pt : part) (fp : footprint)
    (rotation : Q) : list cell :=
  let position := point_sub (get_position fp) aux_orgin in
  [ CStr (part_0 pt);
    CStr (part_1 pt);
    CStr (part_2 pt);
    CNum (ToMM (px position));
    CNum (ToMM (py position) * (-1))%Q;
    CNum rotation;
    CStr (if GetLayer fp =? 0 then "top" else "bottom") ].

(** The inner loop [for fp in get_footprint_by_ref(self.board, part[0])]. *)
Fixpoint cpl_footprints (self : Fabrication) (aux_orgin : point)
    (add_without_lcsc : bool) (csvfile : string) (pt : part)
    (fps : list footprint) (w : world) : world * result unit :=
  match fps with
  | [] => (w, Ok tt)
  | fp :: rest =>
      if get_exclude_from_pos fp then
        cpl_footprints self aux_orgin add_without_lcsc csvfile pt rest w
      else if negb add_without_lcsc && negb (truthy (part_4 pt)) then
        cpl_footprints self aux_orgin add_without_lcsc csvfile pt rest w
      else
        match fix_rotation self fp with
        | (Raise e, logs) => (emit logs w, Raise e)
        | (Ok rotation, logs) =>
            let w := emit logs w in
            let w := writerow csvfile (cpl_row aux_orgin pt fp rotation) w in
            cpl_footprints self aux_orgin add_without_lcsc csvfile pt rest w
        end
  end.

(** The outer loop [for part in self.parent.store.read_pos_parts()]. *)
Fixpoint cpl_parts (self : Fabrication) (aux_orgin : point)
    (add_without_lcsc : bool) (csvfile : string)
    (parts : list part) (w : world) : world * result unit :=
  match parts with
  | [] => (w, Ok tt)
  | pt :: rest =>
      let fps := get_footprint_by_ref (self_board self) (part_0 pt) in
      match cpl_footprints self aux_orgin add_without_lcsc csvfile pt fps w with
      | (w, Raise e) => (w, Raise e)
      | (w, Ok _) =>
          cpl_parts self aux_orgin add_without_lcsc csvfile rest w
      end
  end.

Definition cpl_path (self : Fabrication) : string :=
  os_path_join (outputdir self) ("CPL-" +:+ before_dot (filename self) +:+ ".csv").

(** [Fabrication.generate_cpl]: the object with its corrections loaded,
    the files and log afterwards, and how the call ended. *)
Definition generate_cpl (self : Fabrication) (p : parent) (w : world)
  : Fabrication * world * result unit :=
  let self :=
    {| self_board := self_board self;
       corrections := get_all_correction_data p;
       path := path self;
       filename := filename self;
       outputdir := outputdir self;
       gerberdir := gerberdir self |} in
  let aux_orgin := GetAuxOrigin (self_board self) in
  let add_without_lcsc := gerber_setting p "lcsc_bom_pos" in
  let csvfile := cpl_path self in
  let w := open_w csvfile w in
  let w := writerow csvfile cpl_header w in
  match cpl_parts self aux_orgin add_without_lcsc csvfile (read_pos_parts p) w with
  | (w, Raise e) => (self, w, Raise e)
  | (w, Ok _) =>
      (self, emit [LogRecord INFO "Finished generating CPL file" []] w, Ok tt)
  end.

End Placement.

(** ** A regular-expression engine for a fragment of Python's [re]

    The theorems below hold for every engine. To run the model on concrete
    tables, this engine covers the patterns built from literal characters,
    [.], grouping parentheses, [|], the postfix operators [*], [+], [?] and
    a backslash before a non-alphanumeric character. Matching is by
    derivatives. *)

Inductive regex :=
  | Void
  | Eps
  | Chr (a : ascii)
  | Dot                       (* any character but a newline *)
  | AnyChar
  | Cat (r1 r2 : regex)
  | Alt (r1 r2 : regex)
  | Star (r : regex).

Fixpoint nullable (r : regex) : bool :=
  match r with
  | Void | Chr _ | Dot | AnyChar => false
  | Eps | Star _ => true
  | Cat r1 r2 => nullable r1 && nullable r2
  | Alt r1 r2 => nullable r1 || nullable r2
  end.

Fixpoint deriv (a : ascii) (r : regex) : regex :=
  match r with
  | Void | Eps => Void
  | Chr b => if Ascii.eqb a b then Eps else Void
  | Dot => if Ascii.eqb a "010"%char then Void else Eps
  | AnyChar => Eps
  | Cat r1 r2 =>
      if nullable r1 then Alt (Cat (deriv a r1) r2) (deriv a r2)
      else Cat (deriv a r1) r2
  | Alt r1 r2 => Alt (deriv a r1) (deriv a r2)
  | Star r1 => Cat (deriv a r1) (Star r1)
  end.

Fixpoint full_match (r : regex) (s : string) : bool :=
  match s with
  | EmptyString => nullable r
  | String a s' => full_match (deriv a r) s'
  end.

(** Some substring of [s] matches [r]. *)
Definition search (r : regex) (s : string) : bool :=
  full_match (Cat (Star AnyChar) (Cat r (Star AnyChar))) s.

Inductive parsed :=
  | Parsed (r : regex) (rest : string)
  | Malformed          (* the pattern does not compile: [re.error] *)
  | OutsideFragment.   (* syntax this engine does not cover *)

Definition is_alnum (c : ascii) : bool :=
  let n := nat_of_ascii c in
  ((48 <=? n) && (n <=? 57) || (65 <=? n) && (n <=? 90)
   || (97 <=? n) && (n <=? 122))%nat.

Definition is_postfix (c : ascii) : bool :=
  Ascii.eqb c "*"%char || Ascii.eqb c "+"%char || Ascii.eqb c "?"%char.

(** An atom followed by at most one postfix operator; a second operator in
    a row (lazy, possessive or repeated) is outside the fragment. *)
Definition postfix (a : regex) (rest : string) : parsed :=
  match rest with
  | String q rest' =>
      if is_postfix q then
        match rest' with
        | String q' _ =>
            if is_postfix q' then OutsideFragment
            else if Ascii.eqb q "*"%char then Parsed (Star a) rest'
            else if Ascii.eqb q "+"%char then Parsed (Cat a (Star a)) rest'
            else Parsed (Alt a Eps) rest'
        | EmptyString =>
            if Ascii.eqb q "*"%char then Parsed (Star a) rest'
            else if Ascii.eqb q "+"%char then Parsed (Cat a (Star a)) rest'
            else Parsed (Alt a Eps) rest'
        end
      else Parsed a rest
  | EmptyString => Parsed a rest
  end.

Fixpoint parse_alt (fuel : nat) (s : string) : parsed :=
  match fuel with
  | O => OutsideFragment
  | S fuel =>
      match parse_seq fuel s with
      | Parsed r (String "|"%char rest) =>
          match parse_alt fuel rest with
          | Parsed r' rest' => Parsed (Alt r r') rest'
          | e => e
          end
      | other => other
      end
  end
with parse_seq (fuel : nat) (s : string) : parsed :=
  match fuel with
  | O => OutsideFragment
  | S fuel =>
      match s with
      | EmptyString => Parsed Eps s
      | String c _ =>
          if Ascii.eqb c "|"%char || Ascii.eqb c ")"%char then Parsed Eps s
          else
            match parse_atom fuel s with
            | Parsed a rest =>
                match postfix a rest with
                | Parsed a' rest' =>
                    match parse_seq fuel rest' with
                    | Parsed r rest'' => Parsed (Cat a' r) rest''
                    | e => e
                    end
                | e => e
                end
            | e => e
            end
      end
  end
with parse_atom (fuel : nat) (s : string) : parsed :=
  match fuel with
  | O => OutsideFragment
  | S fuel =>
      match s with
      | EmptyString => Malformed
      | String c rest =>
          if Ascii.eqb c "("%char then
            match rest with
            | String "?"%char _ => OutsideFragment
            | _ =>
                match parse_alt fuel rest with
                | Parsed r (String ")"%char rest') => Parsed r rest'
                | Parsed _ _ => Malformed      (* missing closing parenthesis *)
                | e => e
                end
            end
          else if Ascii.eqb c "\"%char then
            match rest with
            | EmptyString => Malformed         (* pattern ends in a backslash *)
            | String d rest' =>
                if is_alnum d || (128 <=? nat_of_ascii d)%nat then OutsideFragment
                else Parsed (Chr d) rest'
            end
          else if Ascii.eqb c "."%char then Parsed Dot rest
          else if is_postfix c then Malformed  (* nothing to repeat *)
          else if Ascii.eqb c "["%char || Ascii.eqb c "{"%char
                  || Ascii.eqb c "^"%char || Ascii.eqb c "$"%char
                  || (128 <=? nat_of_ascii c)%nat
          then OutsideFragment
          else Parsed (Chr c) rest
      end
  end.

(** [re.compile] on the fragment. *)
Definition re_compile (pattern : string) : parsed :=
  match parse_alt (3 * String.length pattern + 3) pattern with
  | Parsed r EmptyString => Parsed r EmptyString
  | Parsed _ _ => Malformed                    (* unbalanced parenthesis *)
  | e => e
  end.

(** [re.search] on the fragment; a pattern outside the fragment is refused
    like one that does not compile. *)
Definition fragment_search (pattern s : string) : option bool :=
  match re_compile pattern with
  | Parsed r _ => Some (search r s)
  | Malformed | OutsideFragment => None
  end.

(** ** The engine of KiCad 6 and 7

    The layer numbers are those of [PCB_LAYER_ID]; [ToMM] divides
    nanometres by a million; the centre of a box is its position plus half
    its size. *)
Definition kicad : Pcbnew := {|
  F_Cu := 0; F_SilkS := 37; F_Mask := 39; F_Paste := 35;
  B_Cu := 31; B_SilkS := 36; B_Mask := 38; B_Paste := 34;
  Edge_Cuts := 44; Cmts_User := 41;
  ToMM := fun iu => Qred (inject_Z iu / 1000000);
  GetCenter := fun b =>
    Point (px (box_pos b) + Z.quot (px (box_size b)) 2)
          (py (box_pos b) + Z.quot (py (box_size b)) 2);
  re_search := fragment_search
|}.

(** ** Specification-level views *)

Section Views.
Context `{Pcbnew}.

(** A footprint of a part survives the two skips of the placement export. *)
Definition survives (add_without_lcsc : bool) (pt : part) (fp : footprint)
  : bool :=
  negb (get_exclude_from_pos fp) && (add_without_lcsc || truthy (part_4 pt)).

(** The (part, footprint) pairs of the specification: for every part entry
    its footprints by reference designator, without the excluded ones and
    without those of a part that lacks a supplier id when the flag is off. *)
Definition placement_pairs (b : board) (add_without_lcsc : bool)
    (parts : list part) : list (part * footprint) :=
  pt ← parts;
  (fun fp => (pt, fp)) <$>
    List.filter (survives add_without_lcsc pt) (get_footprint_by_ref b (part_0 pt)).

(** [row] is the placement row of the pair [ptfp]. *)
Definition row_of (self : Fabrication) (aux_orgin : point)
    (ptfp : part * footprint) (row : list cell) : Prop :=
  exists rotation,
    (fix_rotation self ptfp.2).1 = Ok rotation
    /\ row = cpl_row aux_orgin ptfp.1 ptfp.2 rotation.

(** How the export of the pairs [pairs] ended with the rows [rows]: all of
    them written, or the rotation of one of them raised after the rows of
    the pairs before it were written. *)
Definition exported (self : Fabrication) (aux_orgin : point)
    (pairs : list (part * footprint)) (rows : list (list cell))
    (out : result unit) : Prop :=
  match out with
  | Ok _ => Forall2 (row_of self aux_orgin) pairs rows
  | Raise e =>
      exists pre ptfp post,
        pairs = pre ++ ptfp :: post
        /\ Forall2 (row_of self aux_orgin) pre rows
        /\ (fix_rotation self ptfp.2).1 = Raise e
  end.

(** No rule of [rules] matches [subject]. *)
Definition no_match (subject : string) (rules : list (string * Z)) : Prop :=
  Forall (fun rule => re_search rule.1 subject = Some false) rules.

(** The rotation [fix_rotation] starts from: the raw angle, mirrored on
    the bottom side. *)
Definition mirrored (fp : footprint) : Q :=
  if negb (GetLayer fp =? 0) then pymod360 (180 - as_degrees (GetOrientation fp))
  else as_degrees (GetOrientation fp).

End Views.

(** [rows] were appended to the file [csvfile], nothing else changed on disk. *)
Definition appended (csvfile : string) (rows : list (list cell))
    (w w' : world) : Prop :=
  files w' !! csvfile = (fun old => old ++ rows) <$> (files w !! csvfile)
  /\ forall p, p <> csvfile -> files w' !! p = files w !! p.

(** ** Bill of materials ([generate_bom]) *)

Definition bom_header : list cell :=
  [CStr "Comment"; CStr "Designator"; CStr "Footprint"; CStr "LCSC"].

Definition bom_path (self : Fabrication) : string :=
  os_path_join (outputdir self) ("BOM-" +:+ before_dot (filename self) +:+ ".csv").

(** The loop [for part in self.parent.store.read_bom_parts()]. *)
Fixpoint bom_parts (csvfile : string) (parts : list (list string)) (w : world)
  : world :=
  match parts with
  | [] => w
  | pt :: rest => bom_parts csvfile rest (writerow csvfile (CStr <$> pt) w)
  end.

(** [Fabrication.generate_bom] *)
Definition generate_bom (self : Fabrication) (p : parent) (w : world) : world :=
  let csvfile := bom_path self in
  let w := open_w csvfile w in
  let w := writerow csvfile bom_header w in
  let w := bom_parts csvfile (read_bom_parts p) w in
  emit [LogRecord INFO "Finished generating BOM file" []] w.

(** ** The archive ([zip_gerber_excellon]) *)

(** [s.endswith(suffix)] *)
Fixpoint endswith (s suffix : string) : bool :=
  String.eqb s suffix
  || match s with
     | EmptyString => false
     | String _ r => endswith r suffix
     end.

(** [filename.endswith(("gbr", "drl", "pdf"))] *)
Definition archived (filename : string) : bool :=
  endswith filename "gbr" || endswith filename "drl" || endswith filename "pdf".

(** [os.path.basename] *)
Definition os_path_basename (p : string) : string := (cut_last_slash p).2.

(** The loop [for filename in filenames]: the calls
    [zipfile.write(filePath, os.path.basename(filePath))]. *)
Fixpoint zip_filenames (folderName : string) (filenames : list string)
  : list (string * string) :=
  match filenames with
  | [] => []
  | filename :: rest =>
      if negb (archived filename) then zip_filenames folderName rest
      else
        let filePath := os_path_join folderName filename in
        (filePath, os_path_basename filePath) :: zip_filenames folderName rest
  end.

(** The loop over [os.walk(self.gerberdir)]; [walk] is what the walk
    yields, a folder name with its file names at a time. *)
Fixpoint zip_walk (walk : list (string * list string))
  : list (string * string) :=
  match walk with
  | [] => []
  | (folderName, filenames) :: rest =>
      zip_filenames folderName filenames ++ zip_walk rest
  end.

(** [Fabrication.zip_gerber_excellon]: the path of the archive, the files
    written into it with their names in the archive, and the log. *)
Definition zip_gerber_excellon (self : Fabrication)
    (walk : list (string * list string))
  : string * list (string * string) * list log_record :=
  let zipname := "GERBER-" +:+ before_dot (filename self) +:+ ".zip" in
  (os_path_join (outputdir self) zipname,
   zip_walk walk,
   [LogRecord INFO "Finished generating ZIP file" []]).

(** ** The rows of an export, as a function of the pairs *)

Section Rows.
Context `{Pcbnew}.

(** The rows written for [pairs] up to the first pair whose rotation
    raises, and how the loop ended. *)
Fixpoint export_rows (self : Fabrication) (aux_orgin : point)
    (pairs : list (part * footprint)) : list (list cell) * result unit :=
  match pairs with
  | [] => ([], Ok tt)
  | ptfp :: rest =>
      match (fix_rotation self ptfp.2).1 with
      | Raise e => ([], Raise e)
      | Ok rotation =>
          let (rows, out) := export_rows self aux_orgin rest in
          (cpl_row aux_orgin ptfp.1 ptfp.2 rotation :: rows, out)
      end
  end.

End Rows.

Definition plan_names (plan : list (string * Z * string)) : list string :=
  (fun layer_info => layer_info.1.1) <$> plan.

Definition plan_layers (plan : list (string * Z * string)) : list Z :=
  (fun layer_info => layer_info.1.2) <$> plan.

(** The names given to [OpenPlotfile], in call order. *)
Definition opened (calls : list plot_call) : list string :=
  omap (fun c => match c with OpenPlotfile name _ => Some name | _ => None end)
       calls.

(** ** The rotation resolver in binary64

    [fix_rotation] and [rotate] once more, on the doubles that Python
    computes with. The rule scans are the ones above. *)

(** What the resolver can raise: the [re.error] of a scan, or the
    [OverflowError] of [int + float] when the integer has no double. *)
Inductive raised :=
  | Regex (e : exn)
  | OverflowError.

(** The angle of a footprint as the engine hands it over. *)
Inductive orientation_b64 :=
  | AsDegrees (degrees : float)
  | Tenths (tenths : float).

(** The conversion of a Python [int] to [float], to the nearest double,
    ties to even; [None] is [OverflowError]. *)
Definition b64_of_int (z : Z) : option float :=
  let f := SF2Prim (binary_normalize prec emax z 0 false) in
  if is_infinity f then None else Some f.

(** C's [fmod(x, 360.0)]: the remainder of the magnitude, exact, with the
    sign of [x]. *)
Definition fmod360 (x : float) : float :=
  match Prim2SF x with
  | S754_nan | S754_infinity _ => nan
  | S754_zero _ => x
  | S754_finite s m e =>
      let f :=
        if 0 <=? e then
          of_uint63 (Uint63.of_Z ((Zpos m * 2 ^ e) mod 360))
        else
          Z.ldexp (of_uint63 (Uint63.of_Z (Zpos m mod (360 * 2 ^ (- e))))) e in
      if s then (- f)%float else f
  end.

(** [x % 360] on a float, as CPython's [float_rem] computes it: [fmod],
    then the divisor is added to a negative remainder, and a zero
    remainder is [+0.0]. *)
Definition py_mod360 (x : float) : float :=
  let m := fmod360 x in
  if (m =? 0)%float then zero
  else if (m <? 0)%float then (m + 360)%float
  else m.

(** [original.AsDegrees()], or [original / 10]. *)
Definition as_degrees_b64 (original : orientation_b64) : float :=
  match original with
  | AsDegrees d => d
  | Tenths t => (t / 10)%float
  end.

Section Binary64.
Context `{Pcbnew}.

(** [Fabrication.rotate] *)
Definition rotate_b64 (fp : footprint) (rotation : float) (correction : Z)
  : (raised + float) * list log_record :=
  let args := [AStr (GetReference fp); AStr (GetValue fp);
               AStr (GetLibItemName fp); AInt correction] in
  match b64_of_int (int correction) with
  | None => (inl OverflowError, [])
  | Some c =>
      if GetLayer fp =? 0 then
        (inr (py_mod360 (rotation + c)),
         [LogRecord INFO
            "Fixed rotation of %s (%s / %s) on Top Layer by %d degrees" args])
      else
        (inr (py_mod360 (rotation - c)),
         [LogRecord INFO
            "Fixed rotation of %s (%s / %s) on Bottom Layer by %d degrees"
            args])
  end.

(** [Fabrication.fix_rotation]; [original] is what [GetOrientation()]
    answers for [fp]. *)
Definition fix_rotation_b64 (self : Fabrication) (fp : footprint)
    (original : orientation_b64) : (raised + float) * list log_record :=
  let rotation := as_degrees_b64 original in
  let rotation :=
    if negb (GetLayer fp =? 0) then py_mod360 (180 - rotation) else rotation in
  match scan (GetValue fp) (corrections self) with
  | Raise e => (inl (Regex e), [])
  | Ok (Some correction) => rotate_b64 fp rotation correction
  | Ok None =>
      match scan (GetLibItemName fp) (corrections self) with
      | Raise e => (inl (Regex e), [])
      | Ok (Some correction) => rotate_b64 fp rotation correction
      | Ok None => (inr rotation, [])
      end
  end.

End Binary64.

(** ** When a scan meets a pattern the engine refuses *)

Section Refusal.
Context `{Pcbnew}.



End Refusal.

(** ** Boards used in the examples *)

Definition nm (mm : Z) : Z := mm * 1000000.

Definition demo_file : string := "/home/u/proj/board.kicad_pcb".

Definition no_settings : gmap string (gmap string bool) := ∅.

Definition lcsc_only : gmap string (gmap string bool) :=
  {[ "gerber" := {[ "lcsc_bom_pos" := false ]} ]}.

Definition empty_world : world := World ∅ [].

(** A regulator on the bottom side, turned by 45 degrees. *)
Definition sot23_bottom : footprint :=
  Footprint "U1" "LM1117" "SOT-23" (EdaAngle 45) 31
    (Point (nm 100) (nm 50)) (Box (Point (nm 98) (nm 49)) (Point (nm 4) (nm 2)))
    true false.

Definition sot23_board : board :=
  Board demo_file [sot23_bottom] 2 (Point 0 0).

Definition sot23_parent : parent :=
  Parent no_settings [("SOT-23", 180)]
    [Part "U1" "LM1117" "SOT-23" "" (Some "C6186")] [].

(** A resistor on the top side at (15 mm, 20 mm), turned by -90 degrees,
    on a board whose auxiliary origin is (10 mm, 10 mm). *)
Definition resistor_top : footprint :=
  Footprint "R1" "10k" "R_0402_1005Metric" (EdaAngle (-90)) 0
    (Point (nm 15) (nm 20)) (Box (Point (nm 14) (nm 19)) (Point (nm 2) (nm 2)))
    true false.

Definition resistor_board : board :=
  Board demo_file [resistor_top] 2 (Point (nm 10) (nm 10)).

Definition resistor_part : part :=
  Part "R1" "10k" "R_0402_1005Metric" "" (Some "C25744").

Definition resistor_parent : parent :=
  Parent no_settings [("SOT-23", 180)] [resistor_part] [].

(** The same export with a correction table whose only pattern is an
    unclosed parenthesis. *)
Definition broken_parent : parent :=
  Parent no_settings [("(", 90)] [resistor_part] [].

(** A table in which two rules match the value [10k] and a third one the
    package name. *)
Definition overlapping_rules : list (string * Z) :=
  [("10k", 90); ("10", 180); ("0402", 270)].

Definition with_corrections (b : board) (rules : list (string * Z))
  : Fabrication :=
  MkFabrication b rules "/home/u/proj" "board.kicad_pcb"
    "/home/u/proj/jlcpcb/production_files" "/home/u/proj/jlcpcb/gerber".

Definition resistor_4k7 : footprint :=
  Footprint "R2" "4k7" "R_0402_1005Metric" (EdaAngle 0) 0
    (Point (nm 30) (nm 20)) (Box (Point (nm 29) (nm 19)) (Point (nm 2) (nm 2)))
    true false.

(** A board with two capacitors under one reference, a mounting hole kept
    out of the placement file, a through-hole connector, and a part list in
    which the connector has no supplier id. *)
Definition cap_a : footprint :=
  Footprint "C1" "100n" "C_0402_1005Metric" (EdaAngle 0) 0
    (Point (nm 20) (nm 20)) (Box (Point (nm 19) (nm 19)) (Point (nm 2) (nm 2)))
    true false.

Definition cap_b : footprint :=
  Footprint "C1" "100n" "C_0402_1005Metric" (EdaAngle 90) 31
    (Point (nm 40) (nm 20)) (Box (Point (nm 39) (nm 19)) (Point (nm 2) (nm 2)))
    true false.

Definition hole : footprint :=
  Footprint "H1" "MountingHole" "MountingHole_3.2mm" (EdaAngle 0) 0
    (Point (nm 5) (nm 5)) (Box (Point (nm 3) (nm 3)) (Point (nm 4) (nm 4)))
    false true.

Definition connector : footprint :=
  Footprint "J1" "Conn_01x04" "PinHeader_1x04" (EdaAngle 0) 0
    (Point (nm 60) (nm 10)) (Box (Point (nm 59) (nm 9)) (Point (nm 3) (nm 11)))
    false false.

Definition mixed_board : board :=
  Board demo_file [cap_a; hole; connector; cap_b] 2 (Point 0 0).

Definition mixed_parts : list part :=
  [ Part "C1" "100n" "C_0402_1005Metric" "" (Some "C1525");
    Part "H1" "MountingHole" "MountingHole_3.2mm" "" (Some "C0000");
    Part "J1" "Conn_01x04" "PinHeader_1x04" "" None ].

Definition mixed_parent (s : gmap string (gmap string bool)) : parent :=
  Parent s [("SOT-23", 180)] mixed_parts [].

(** The columns of a placement row. *)
Definition placement_row_shape (row : list cell) : Prop :=
  length row = length cpl_header
  /\ (exists designator val package,
        row !! 0%nat = Some (CStr designator) /\ row !! 1%nat = Some (CStr val)
        /\ row !! 2%nat = Some (CStr package))
  /\ (exists x y rotation,
        row !! 3%nat = Some (CNum x) /\ row !! 4%nat = Some (CNum y)
        /\ row !! 5%nat = Some (CNum rotation))
  /\ (row !! 6%nat = Some (CStr "top") \/ row !! 6%nat = Some (CStr "bottom")).

(** The resistor of [resistor_top] moved to the bottom side. *)
Definition resistor_bottom : footprint :=
  Footprint "R1" "10k" "R_0402_1005Metric" (EdaAngle (-90)) 31
    (Point (nm 15) (nm 20)) (Box (Point (nm 14) (nm 19)) (Point (nm 2) (nm 2)))
    true false.

(** A disk on which an older placement file is left. *)
Definition stale_world : world :=
  World {[ "/home/u/proj/jlcpcb/production_files/CPL-board.csv"
           := [[CStr "stale"]; [CStr "rows"]] ]} [].

(** A board without footprints. *)
Definition bare_board : board := Board demo_file [] 2 (Point 0 0).

(** A board file with two dots in its name. *)
Definition dotted_board : board :=
  Board "/home/u/proj/main.v2.kicad_pcb" [] 2 (Point 0 0).

(** What a walk of the Gerber directory may yield. *)
Definition gerber_walk : list (string * list string) :=
  [ ("/home/u/proj/jlcpcb/gerber",
     ["CuTop.gbr"; "notes.txt"; "board.drl"; "board-drl_map.pdf"]);
    ("/home/u/proj/jlcpcb/gerber/old", ["CuTop.gbr"; "CPL-board.csv"]) ].

(** * Properties *)

(** ** Arithmetic of [% 360] *)

Lemma pymod360_comp (x y : Q) : (x == y)%Q -> (pymod360 x == pymod360 y)%Q.
Proof.
  intros Hxy. unfold pymod360.
  assert (Hf : Qfloor (x / 360) = Qfloor (y / 360)).
  { apply Qfloor_comp. rewrite Hxy. reflexivity. }
  rewrite Hf, Hxy. reflexivity.
Qed.

(** ** Rule lookup and rotation *)

Section RotationFacts.
Context `{Pcbnew}.

Lemma scan_first_match (subject : string) (pre : list (string * Z))
    (regex : string) (c : Z) (post : list (string * Z)) :
  no_match subject pre ->
  re_search regex subject = Some true ->
  scan subject (pre ++ (regex, c) :: post) = Ok (Some c).
Proof.
  intros Hpre Hhit. induction Hpre as [|[re c'] pre Hmiss _ IH]; simpl.
  - rewrite Hhit. reflexivity.
  - simpl in Hmiss. rewrite Hmiss. exact IH.
Qed.

Lemma scan_no_match (subject : string) (rules : list (string * Z)) :
  no_match subject rules -> scan subject rules = Ok None.
Proof.
  intros Hall. induction Hall as [|[re c] rules Hmiss _ IH]; simpl.
  - reflexivity.
  - simpl in Hmiss. rewrite Hmiss. exact IH.
Qed.

Lemma scan_hit (subject : string) (rules : list (string * Z)) (c : Z) :
  scan subject rules = Ok (Some c) ->
  exists pre regex post,
    rules = pre ++ (regex, c) :: post
    /\ no_match subject pre
    /\ re_search regex subject = Some true.
Proof.
  induction rules as [|[re c'] rules IH]; simpl; [discriminate|].
  destruct (re_search re subject) as [[|]|] eqn:E; intros Hs.
  - injection Hs as ->. exists [], re, rules. repeat split; [constructor | exact E].
  - destruct (IH Hs) as (pre & regex & post & -> & Hpre & Hhit).
    exists ((re, c') :: pre), regex, post. repeat split; [|exact Hhit].
    constructor; [exact E | exact Hpre].
  - discriminate.
Qed.

Lemma scan_miss (subject : string) (rules : list (string * Z)) :
  scan subject rules = Ok None -> no_match subject rules.
Proof.
  induction rules as [|[re c'] rules IH]; simpl; [constructor|].
  destruct (re_search re subject) as [[|]|] eqn:E; intros Hs; try discriminate.
  constructor; [exact E | exact (IH Hs)].
Qed.

Lemma scan_raise (subject : string) (rules : list (string * Z)) (e : exn) :
  scan subject rules = Raise e ->
  exists regex c,
    e = re_error regex /\ (regex, c) ∈ rules /\ re_search regex subject = None.
Proof.
  induction rules as [|[re c'] rules IH]; simpl; [discriminate|].
  destruct (re_search re subject) as [[|]|] eqn:E; intros Hs.
  - discriminate.
  - destruct (IH Hs) as (regex & c & -> & Hin & Hnone).
    exists regex, c. repeat split; [right; exact Hin | exact Hnone].
  - injection Hs as <-. exists re, c'. repeat split; [left | exact E].
Qed.

Lemma scan_compiles (subject : string) (rules : list (string * Z)) :
  (forall rule, rule ∈ rules -> re_search rule.1 subject <> None) ->
  exists o, scan subject rules = Ok o.
Proof.
  intros Hok. destruct (scan subject rules) as [o|e] eqn:E; [eauto|].
  destruct (scan_raise _ _ _ E) as (regex & c & _ & Hin & Hnone).
  destruct (Hok _ Hin Hnone).
Qed.

Lemma rotate_log (fp : footprint) (r : Q) (c : Z) :
  length (rotate fp r c).2 = 1%nat.
Proof. unfold rotate. destruct (GetLayer fp =? 0); reflexivity. Qed.

(** The three ways [fix_rotation] ends. *)
Lemma fix_rotation_cases (self : Fabrication) (fp : footprint) :
  (exists e, fix_rotation self fp = (Raise e, [])
     /\ (scan (GetValue fp) (corrections self) = Raise e
         \/ scan (GetLibItemName fp) (corrections self) = Raise e))
  \/ (fix_rotation self fp = (Ok (mirrored fp), [])
      /\ no_match (GetValue fp) (corrections self)
      /\ no_match (GetLibItemName fp) (corrections self))
  \/ (exists c, fix_rotation self fp
                = (Ok (rotate fp (mirrored fp) c).1, (rotate fp (mirrored fp) c).2)
        /\ (scan (GetValue fp) (corrections self) = Ok (Some c)
            \/ scan (GetLibItemName fp) (corrections self) = Ok (Some c))).
Proof.
  unfold fix_rotation. fold (mirrored fp).
  destruct (scan (GetValue fp) (corrections self)) as [[c|]|e] eqn:Ev.
  - right; right. exists c. destruct (rotate fp (mirrored fp) c); simpl; auto.
  - destruct (scan (GetLibItemName fp) (corrections self)) as [[c|]|e] eqn:Ep.
    + right; right. exists c. destruct (rotate fp (mirrored fp) c); simpl; auto.
    + right; left. repeat split; apply scan_miss; assumption.
    + left. exists e. auto.
  - left. exists e. auto.
Qed.

Lemma fix_rotation_value_match (self : Fabrication) (fp : footprint)
    (pre : list (string * Z)) (regex : string) (c : Z)
    (post : list (string * Z)) :
  corrections self = pre ++ (regex, c) :: post ->
  no_match (GetValue fp) pre ->
  re_search regex (GetValue fp) = Some true ->
  fix_rotation self fp
  = (Ok (rotate fp (mirrored fp) c).1, (rotate fp (mirrored fp) c).2).
Proof.
  intros Htab Hpre Hhit. unfold fix_rotation. fold (mirrored fp).
  rewrite Htab, (scan_first_match _ _ _ _ _ Hpre Hhit).
  destruct (rotate fp (mirrored fp) c); reflexivity.
Qed.

Lemma fix_rotation_package_match (self : Fabrication) (fp : footprint)
    (pre : list (string * Z)) (regex : string) (c : Z)
    (post : list (string * Z)) :
  corrections self = pre ++ (regex, c) :: post ->
  no_match (GetValue fp) (corrections self) ->
  no_match (GetLibItemName fp) pre ->
  re_search regex (GetLibItemName fp) = Some true ->
  fix_rotation self fp
  = (Ok (rotate fp (mirrored fp) c).1, (rotate fp (mirrored fp) c).2).
Proof.
  intros Htab Hval Hpre Hhit. unfold fix_rotation. fold (mirrored fp).
  rewrite (scan_no_match _ _ Hval).
  rewrite Htab, (scan_first_match _ _ _ _ _ Hpre Hhit).
  destruct (rotate fp (mirrored fp) c); reflexivity.
Qed.

Lemma fix_rotation_unmatched (self : Fabrication) (fp : footprint) :
  no_match (GetValue fp) (corrections self) ->
  no_match (GetLibItemName fp) (corrections self) ->
  fix_rotation self fp = (Ok (mirrored fp), []).
Proof.
  intros Hval Hpkg. unfold fix_rotation. fold (mirrored fp).
  rewrite (scan_no_match _ _ Hval), (scan_no_match _ _ Hpkg). reflexivity.
Qed.

End RotationFacts.

Section RotationClaims.
Context `{Pcbnew}.

(** C3. The rules are scanned in declaration order against the value
    first and the first rule that matches it is applied, whatever the
    package name is; the package name is scanned, in the same order, only
    when no rule matched the value; and a footprint gets the offset of at
    most one rule: the result is the mirrored angle itself or that angle
    corrected by one rule of the table, with at most one correction
    logged. *)
Theorem fix_rotation_first_match (self : Fabrication) (fp : footprint) :
  (forall pre regex c post,
      corrections self = pre ++ (regex, c) :: post ->
      no_match (GetValue fp) pre ->
      re_search regex (GetValue fp) = Some true ->
      fix_rotation self fp
      = (Ok (rotate fp (mirrored fp) c).1, (rotate fp (mirrored fp) c).2))
  /\ (forall pre regex c post,
      corrections self = pre ++ (regex, c) :: post ->
      no_match (GetValue fp) (corrections self) ->
      no_match (GetLibItemName fp) pre ->
      re_search regex (GetLibItemName fp) = Some true ->
      fix_rotation self fp
      = (Ok (rotate fp (mirrored fp) c).1, (rotate fp (mirrored fp) c).2))
  /\ (forall r,
      (fix_rotation self fp).1 = Ok r ->
      (r = mirrored fp /\ (fix_rotation self fp).2 = [])
      \/ exists regex c,
           (regex, c) ∈ corrections self
           /\ r = (rotate fp (mirrored fp) c).1
           /\ (fix_rotation self fp).2 = (rotate fp (mirrored fp) c).2)
  /\ (length (fix_rotation self fp).2 <= 1)%nat.
Proof.
  split; [|split; [|split]].
  - intros pre regex c post. apply fix_rotation_value_match.
  - intros pre regex c post. apply fix_rotation_package_match.
  - intros r Hr.
    destruct (fix_rotation_cases self fp)
      as [(e & He & _) | [(Hno & _) | (c & Hc & Hscan)]].
    + rewrite He in Hr. discriminate.
    + rewrite Hno in Hr |- *. simpl in *. left. split; congruence.
    + rewrite Hc in Hr |- *. simpl in *. right.
      assert (Hin : exists regex, (regex, c) ∈ corrections self).
      { destruct Hscan as [Hs | Hs];
          destruct (scan_hit _ _ _ Hs) as (pre & regex & post & -> & _);
          exists regex; apply elem_of_app; right; left. }
      destruct Hin as (regex & Hin). exists regex, c.
      repeat split; [exact Hin | congruence].
  - destruct (fix_rotation_cases self fp)
      as [(e & -> & _) | [(-> & _) | (c & -> & _)]]; simpl; try lia.
    rewrite rotate_log. lia.
Qed.

(** C4. A bottom-side footprint with raw rotation 45 degrees, whose value
    matches no rule and whose package name matches the one rule of offset
    180, is first mirrored to (180 - 45) mod 360 = 135 and then corrected
    on the bottom side to 315. *)
Theorem bottom_45_offset_180 (self : Fabrication) (fp : footprint)
    (regex : string) :
  GetLayer fp <> 0 ->
  (as_degrees (GetOrientation fp) == 45)%Q ->
  corrections self = [(regex, 180)] ->
  re_search regex (GetValue fp) = Some false ->
  re_search regex (GetLibItemName fp) = Some true ->
  (mirrored fp == 135)%Q
  /\ exists r, (fix_rotation self fp).1 = Ok r /\ (r == 315)%Q.
Proof.
  intros Hlayer Hraw Htab Hval Hpkg.
  assert (Hm : (mirrored fp == 135)%Q).
  { unfold mirrored. apply Z.eqb_neq in Hlayer. rewrite Hlayer. simpl.
    rewrite (pymod360_comp _ (180 - 45)) by (rewrite Hraw; reflexivity).
    reflexivity. }
  split; [exact Hm|].
  rewrite (fix_rotation_package_match self fp [] regex 180 []).
  - eexists. split; [reflexivity|]. simpl.
    unfold rotate. apply Z.eqb_neq in Hlayer. rewrite Hlayer. simpl.
    rewrite (pymod360_comp _ (135 - 180)) by (rewrite Hm; reflexivity).
    reflexivity.
  - exact Htab.
  - rewrite Htab. repeat constructor. exact Hval.
  - constructor.
  - exact Hpkg.
Qed.

End RotationClaims.

(** ** The layer plot plan *)

Section GerberFacts.
Context `{Pcbnew}.

Lemma plot_layers_flags (plotter : Z -> bool)
    (plan : list (string * Z * string)) :
  skip_flags (plot_layers plotter plan).1 = skip_npth <$> plan.
Proof.
  induction plan as [|layer_info plan IH]; [reflexivity|].
  simpl. destruct (plot_layers plotter plan) as [calls logs]. simpl in *.
  unfold skip_flags in *. unfold skip_npth at 1.
  destruct (layer_info.1.2 <=? B_Cu); simpl; rewrite IH; reflexivity.
Qed.

(** The calls made to the plotter do not depend on its answers. *)
Lemma plot_layers_calls (plotter plotter' : Z -> bool)
    (plan : list (string * Z * string)) :
  (plot_layers plotter plan).1 = (plot_layers plotter' plan).1.
Proof.
  induction plan as [|layer_info plan IH]; [reflexivity|].
  simpl. destruct (plot_layers plotter plan), (plot_layers plotter' plan).
  simpl in *. rewrite IH. reflexivity.
Qed.

Lemma generate_geber_flags (self : Fabrication) (layer_count : option Z)
    (plotter : Z -> bool) :
  skip_flags (generate_geber self layer_count plotter).1
  = skip_npth <$> plot_plan (effective_layer_count self layer_count).
Proof.
  unfold generate_geber.
  pose proof (plot_layers_flags plotter
                (plot_plan (effective_layer_count self layer_count))) as Hf.
  destruct (plot_layers plotter _) as [calls logs]. simpl in *.
  unfold skip_flags in *. rewrite omap_app, Hf. simpl. apply app_nil_r.
Qed.

Lemma inner_flags (layers : list Z) :
  Forall (fun layer => layer <= B_Cu) layers ->
  skip_npth <$> (inner_entry <$> layers) = replicate (length layers) true.
Proof.
  induction 1 as [|layer layers Hle _ IH]; [reflexivity|].
  rewrite !fmap_cons, IH. unfold skip_npth at 1. simpl.
  apply Z.leb_le in Hle. rewrite Hle. reflexivity.
Qed.

Lemma inner_layer_ids (layers : list Z) :
  (fun layer_info : string * Z * string => layer_info.1.2)
    <$> (inner_entry <$> layers) = layers.
Proof.
  induction layers as [|layer layers IH]; [reflexivity|].
  rewrite !fmap_cons, IH. reflexivity.
Qed.

(** C7. The plan is a function of the layer count alone: two runs with the
    same effective layer count make the same plotter calls. For one layer
    it is the four top entries, then the outline and the V-score entry (6
    entries); for two layers the top and the whole bottom sequence (10
    entries); for [n > 2] the top sequence, then at position [4 + i] the
    inner copper entry of index [i + 1] for [i = 0 .. n - 3], its layer
    id being its index, then the whole bottom sequence: [n + 8] entries,
    12 of them for four layers. *)
Theorem plot_plan_by_layer_count (n : Z) :
  2 < n ->
  (forall self self' layer_count layer_count' plotter plotter',
      effective_layer_count self layer_count
      = effective_layer_count self' layer_count' ->
      (generate_geber self layer_count plotter).1
      = (generate_geber self' layer_count' plotter').1)
  /\ plot_plan 1
     = plot_plan_top
       ++ [("EdgeCuts", Edge_Cuts, "Edges"); ("VScore", Cmts_User, "V score cut")]
  /\ length (plot_plan 1) = 6%nat
  /\ plot_plan 2 = plot_plan_top ++ plot_plan_bottom
  /\ length (plot_plan 2) = 10%nat
  /\ plot_plan n
     = plot_plan_top ++ (inner_entry <$> seqZ 1 (n - 2)) ++ plot_plan_bottom
  /\ (forall i : nat,
        Z.of_nat i < n - 2 ->
        plot_plan n !! (4 + i)%nat
        = Some ("CuIn" +:+ pretty (1 + Z.of_nat i), 1 + Z.of_nat i,
                "Inner layer " +:+ pretty (1 + Z.of_nat i)))
  /\ (forall j : nat,
        plot_plan n !! (4 + Z.to_nat (n - 2) + j)%nat = plot_plan_bottom !! j)
  /\ length (plot_plan n) = Z.to_nat (n + 8)
  /\ length (plot_plan 4) = 12%nat.
Proof.
  intros Hn.
  assert (Hplan : plot_plan n
            = plot_plan_top ++ (inner_entry <$> seqZ 1 (n - 2)) ++ plot_plan_bottom).
  { unfold plot_plan.
    destruct (Z.eqb_spec n 1); [lia|]. destruct (Z.eqb_spec n 2); [lia|].
    reflexivity. }
  split; [|repeat split].
  - intros self self' lc lc' plotter plotter' Heq. unfold generate_geber.
    rewrite <- Heq.
    pose proof (plot_layers_calls plotter plotter'
                  (plot_plan (effective_layer_count self lc))) as Hc.
    destruct (plot_layers plotter _), (plot_layers plotter' _).
    simpl in *. rewrite Hc. reflexivity.
  - exact Hplan.
  - intros i Hi. rewrite Hplan.
    rewrite lookup_app_r by (simpl; lia).
    replace (4 + i - length plot_plan_top)%nat with i by (simpl; lia).
    rewrite lookup_app_l by (rewrite length_fmap, length_seqZ; lia).
    rewrite list_lookup_fmap, lookup_seqZ_lt by lia. reflexivity.
  - intros j. rewrite Hplan.
    rewrite lookup_app_r by (simpl; lia).
    rewrite lookup_app_r by (rewrite length_fmap, length_seqZ; simpl; lia).
    f_equal. rewrite length_fmap, length_seqZ. simpl. lia.
  - rewrite Hplan, !length_app, length_fmap, length_seqZ. simpl. lia.
Qed.

(** C2, as the code has it. The skip-non-plated-holes flag of an entry is
    true exactly when the layer id of the entry is at most that of
    Bottom-Copper: it follows the layer number, not the position in the
    plan. With layer numbers that put the copper layers up to Bottom-Copper
    and the silkscreen, mask, paste, outline and comment layers above it,
    the flags in plan order are: true for Top-Copper, false for
    Top-Silkscreen, Top-Mask and Top-Paste, true for every inner copper
    entry and for Bottom-Copper, false for everything after it; a
    one-layer plan has no Bottom-Copper entry and only its Top-Copper flag
    is true. *)
Theorem skip_npth_follows_layer_number (self : Fabrication)
    (layer_count : option Z) (plotter : Z -> bool) :
  let n := effective_layer_count self layer_count in
  skip_flags (generate_geber self layer_count plotter).1
  = (fun layer_info : string * Z * string => layer_info.1.2 <=? B_Cu)
      <$> plot_plan n
  /\ (F_Cu <= B_Cu ->
      B_Cu < F_SilkS -> B_Cu < F_Mask -> B_Cu < F_Paste ->
      B_Cu < B_SilkS -> B_Cu < B_Mask -> B_Cu < B_Paste ->
      B_Cu < Edge_Cuts -> B_Cu < Cmts_User ->
      n - 2 <= B_Cu ->
      skip_flags (generate_geber self layer_count plotter).1
      = if n =? 1 then [true; false; false; false; false; false]
        else [true; false; false; false]
             ++ replicate (Z.to_nat (n - 2)) true
             ++ [true; false; false; false; false; false]).
Proof.
  intros n. split; [apply generate_geber_flags|].
  intros HF H1 H2 H3 H4 H5 H6 H7 H8 Hn.
  rewrite generate_geber_flags. fold n. unfold plot_plan.
  apply Z.leb_le in HF. apply Z.leb_gt in H1, H2, H3, H4, H5, H6, H7, H8.
  destruct (n =? 1) eqn:E1; [|destruct (n =? 2) eqn:E2].
  - unfold skip_npth. simpl. rewrite HF, H1, H2, H3, H7, H8. reflexivity.
  - apply Z.eqb_eq in E2. rewrite E2.
    unfold skip_npth. simpl. rewrite HF, H1, H2, H3, H4, H5, H6, H7, H8.
    rewrite Z.leb_refl. reflexivity.
  - rewrite !fmap_app, inner_flags.
    + rewrite length_seqZ. unfold skip_npth. simpl.
      rewrite HF, H1, H2, H3, H4, H5, H6, H7, H8, Z.leb_refl. reflexivity.
    + apply Forall_seqZ. intros m Hm. lia.
Qed.

End GerberFacts.

(** ** The placement export *)

Lemma appended_nil (csvfile : string) (w w' : world) :
  files w' = files w -> appended csvfile [] w w'.
Proof.
  intros Hf. unfold appended. rewrite Hf. split; [|reflexivity].
  destruct (files w !! csvfile) as [old|]; simpl; [|reflexivity].
  rewrite app_nil_r. reflexivity.
Qed.

Lemma appended_trans (csvfile : string) (rows1 rows2 : list (list cell))
    (w1 w2 w3 : world) :
  appended csvfile rows1 w1 w2 ->
  appended csvfile rows2 w2 w3 ->
  appended csvfile (rows1 ++ rows2) w1 w3.
Proof.
  intros [Ha Ha'] [Hb Hb']. split.
  - rewrite Hb, Ha. destruct (files w1 !! csvfile) as [old|]; simpl; [|reflexivity].
    rewrite app_assoc. reflexivity.
  - intros p Hp. rewrite Hb', Ha' by exact Hp. reflexivity.
Qed.

Lemma appended_writerow (csvfile : string) (r : list cell) (w : world) :
  appended csvfile [r] w (writerow csvfile r w).
Proof.
  split; simpl.
  - apply lookup_alter_eq.
  - intros p Hp. apply lookup_alter_ne. congruence.
Qed.

Section PlacementFacts.
Context `{Pcbnew}.

Lemma exported_app (self : Fabrication) (aux_orgin : point)
    (pairs1 pairs2 : list (part * footprint)) (rows1 rows2 : list (list cell))
    (out : result unit) :
  Forall2 (row_of self aux_orgin) pairs1 rows1 ->
  exported self aux_orgin pairs2 rows2 out ->
  exported self aux_orgin (pairs1 ++ pairs2) (rows1 ++ rows2) out.
Proof.
  intros H1 H2. destruct out as [u|e]; simpl in *.
  - apply Forall2_app; assumption.
  - destruct H2 as (pre & ptfp & post & -> & Hpre & He).
    exists (pairs1 ++ pre), ptfp, post. rewrite <- app_assoc.
    repeat split; [apply Forall2_app; assumption | exact He].
Qed.

Lemma exported_raise_front (self : Fabrication) (aux_orgin : point)
    (pairs1 pairs2 : list (part * footprint)) (rows : list (list cell))
    (e : exn) :
  exported self aux_orgin pairs1 rows (Raise e) ->
  exported self aux_orgin (pairs1 ++ pairs2) rows (Raise e).
Proof.
  intros (pre & ptfp & post & -> & Hpre & He).
  exists pre, ptfp, (post ++ pairs2). rewrite <- app_assoc. auto.
Qed.

Lemma cpl_footprints_spec (self : Fabrication) (aux_orgin : point)
    (add_without_lcsc : bool) (csvfile : string) (pt : part)
    (fps : list footprint) (w : world) :
  exists rows,
    appended csvfile rows w
      (cpl_footprints self aux_orgin add_without_lcsc csvfile pt fps w).1
    /\ exported self aux_orgin
         ((fun fp => (pt, fp)) <$> List.filter (survives add_without_lcsc pt) fps)
         rows
         (cpl_footprints self aux_orgin add_without_lcsc csvfile pt fps w).2.
Proof.
  revert w. induction fps as [|fp fps IH]; intros w.
  - exists []. split; [apply appended_nil; reflexivity | constructor].
  - simpl. unfold survives at 1.
    destruct (get_exclude_from_pos fp) eqn:Ex; simpl; [apply IH|].
    destruct add_without_lcsc eqn:Ea; simpl.
    + destruct (fix_rotation self fp) as [[rotation|e] logs] eqn:Er.
      * destruct (IH (writerow csvfile (cpl_row aux_orgin pt fp rotation)
                        (emit logs w))) as (rows & Happ & Hexp).
        exists (cpl_row aux_orgin pt fp rotation :: rows). split.
        -- apply (appended_trans _ [_] rows _ (writerow csvfile
                    (cpl_row aux_orgin pt fp rotation) (emit logs w)));
             [|exact Happ].
           apply (appended_trans _ [] [_] _ (emit logs w));
             [apply appended_nil; reflexivity | apply appended_writerow].
        -- apply (exported_app _ _ [(pt, fp)] _ [_] rows); [|exact Hexp].
           repeat constructor. exists rotation. simpl. rewrite Er. auto.
      * exists []. split; [apply appended_nil; reflexivity|].
        exists [], (pt, fp), ((fun fp => (pt, fp)) <$> List.filter
                               (survives true pt) fps).
        simpl. rewrite Er. repeat split. constructor.
    + destruct (truthy (part_4 pt)) eqn:Et; simpl; [|apply IH].
      destruct (fix_rotation self fp) as [[rotation|e] logs] eqn:Er.
      * destruct (IH (writerow csvfile (cpl_row aux_orgin pt fp rotation)
                        (emit logs w))) as (rows & Happ & Hexp).
        exists (cpl_row aux_orgin pt fp rotation :: rows). split.
        -- apply (appended_trans _ [_] rows _ (writerow csvfile
                    (cpl_row aux_orgin pt fp rotation) (emit logs w)));
             [|exact Happ].
           apply (appended_trans _ [] [_] _ (emit logs w));
             [apply appended_nil; reflexivity | apply appended_writerow].
        -- apply (exported_app _ _ [(pt, fp)] _ [_] rows); [|exact Hexp].
           repeat constructor. exists rotation. simpl. rewrite Er. auto.
      * exists []. split; [apply appended_nil; reflexivity|].
        exists [], (pt, fp), ((fun fp => (pt, fp)) <$> List.filter
                               (survives false pt) fps).
        simpl. rewrite Er. repeat split. constructor.
Qed.

Lemma cpl_parts_spec (self : Fabrication) (aux_orgin : point)
    (add_without_lcsc : bool) (csvfile : string)
    (parts : list part) (w : world) :
  exists rows,
    appended csvfile rows w
      (cpl_parts self aux_orgin add_without_lcsc csvfile parts w).1
    /\ exported self aux_orgin
         (placement_pairs (self_board self) add_without_lcsc parts)
         rows
         (cpl_parts self aux_orgin add_without_lcsc csvfile parts w).2.
Proof.
  revert w. induction parts as [|pt parts IH]; intros w.
  - exists []. split; [apply appended_nil; reflexivity | constructor].
  - unfold placement_pairs. rewrite bind_cons.
    fold (placement_pairs (self_board self) add_without_lcsc parts).
    cbn [cpl_parts].
    destruct (cpl_footprints_spec self aux_orgin add_without_lcsc csvfile pt
                (get_footprint_by_ref (self_board self) (part_0 pt)) w)
      as (rows1 & Happ1 & Hexp1).
    destruct (cpl_footprints self aux_orgin add_without_lcsc csvfile pt
                (get_footprint_by_ref (self_board self) (part_0 pt)) w)
      as [w1 [u|e]]; simpl in *.
    + destruct (IH w1) as (rows2 & Happ2 & Hexp2).
      exists (rows1 ++ rows2). split.
      * exact (appended_trans _ _ _ _ _ _ Happ1 Happ2).
      * apply exported_app; assumption.
    + exists rows1. split; [exact Happ1|].
      apply exported_raise_front. exact Hexp1.
Qed.

(** What [generate_cpl] leaves behind: the corrections are those of the
    library; the CPL file holds the header and then the rows of the pairs,
    all of them or those before the pair whose rotation raised; no other
    file is touched. *)
Lemma generate_cpl_spec (self : Fabrication) (p : parent) (w : world) :
  let res := generate_cpl self p w in
  corrections res.1.1 = get_all_correction_data p
  /\ exists rows,
       files res.1.2 !! cpl_path self = Some (cpl_header :: rows)
       /\ (forall q, q <> cpl_path self -> files res.1.2 !! q = files w !! q)
       /\ exported res.1.1 (GetAuxOrigin (self_board self))
            (placement_pairs (self_board self)
               (gerber_setting p "lcsc_bom_pos") (read_pos_parts p))
            rows res.2.
Proof.
  unfold generate_cpl.
  set (self' := {| self_board := self_board self;
                   corrections := get_all_correction_data p;
                   path := path self; filename := filename self;
                   outputdir := outputdir self; gerberdir := gerberdir self |}).
  change (cpl_path self') with (cpl_path self).
  change (self_board self') with (self_board self).
  set (w0 := writerow (cpl_path self) cpl_header (open_w (cpl_path self) w)).
  destruct (cpl_parts_spec self' (GetAuxOrigin (self_board self))
              (gerber_setting p "lcsc_bom_pos") (cpl_path self)
              (read_pos_parts p) w0) as (rows & [Hfile Hother] & Hexp).
  change (self_board self') with (self_board self) in Hexp.
  assert (H0 : files w0 !! cpl_path self = Some [cpl_header]).
  { unfold w0, writerow, open_w. simpl.
    rewrite lookup_alter_eq, lookup_insert_eq. reflexivity. }
  assert (H0' : forall q, q <> cpl_path self -> files w0 !! q = files w !! q).
  { intros q Hq. unfold w0, writerow, open_w. simpl.
    rewrite lookup_alter_ne, lookup_insert_ne by congruence. reflexivity. }
  destruct (cpl_parts self' _ _ _ _ w0) as [w1 [u|e]]; simpl in *.
  - split; [reflexivity|]. exists rows. repeat split.
    + rewrite Hfile, H0. reflexivity.
    + intros q Hq. rewrite Hother, H0' by exact Hq. reflexivity.
    + exact Hexp.
  - split; [reflexivity|]. exists rows. repeat split.
    + rewrite Hfile, H0. reflexivity.
    + intros q Hq. rewrite Hother, H0' by exact Hq. reflexivity.
    + exact Hexp.
Qed.

End PlacementFacts.

Section PlacementClaims.
Context `{Pcbnew}.

Lemma elem_of_placement_pairs (b : board) (add_without_lcsc : bool)
    (parts : list part) (pt : part) (fp : footprint) :
  (pt, fp) ∈ placement_pairs b add_without_lcsc parts
  <-> pt ∈ parts
      /\ fp ∈ GetFootprints b
      /\ GetReference fp = part_0 pt
      /\ get_exclude_from_pos fp = false
      /\ (add_without_lcsc = true \/ truthy (part_4 pt) = true).
Proof.
  unfold placement_pairs, get_footprint_by_ref, survives.
  rewrite list_elem_of_bind. split.
  - intros (pt' & Hin & Hpt).
    apply list_elem_of_fmap in Hin as (fp' & Heq & Hin).
    injection Heq as <- <-.
    apply list_elem_of_In, filter_In in Hin as [Hin Hs].
    apply filter_In in Hin as [Hin Href].
    apply andb_true_iff in Hs as [Hex Hadd].
    apply negb_true_iff in Hex. apply orb_true_iff in Hadd.
    apply String.eqb_eq in Href. apply list_elem_of_In in Hin. auto.
  - intros (Hpt & Hfp & Href & Hex & Hadd).
    exists pt. split; [|exact Hpt].
    apply list_elem_of_fmap. exists fp. split; [reflexivity|].
    apply list_elem_of_In, filter_In. split.
    + apply filter_In. split; [apply list_elem_of_In; exact Hfp|].
      apply String.eqb_eq. exact Href.
    + rewrite Hex. simpl. apply orb_true_iff. exact Hadd.
Qed.

Lemma fix_rotation_raise (self : Fabrication) (fp : footprint) (e : exn) :
  (fix_rotation self fp).1 = Raise e ->
  exists regex c s,
    e = re_error regex /\ (regex, c) ∈ corrections self
    /\ re_search regex s = None.
Proof.
  intros He.
  destruct (fix_rotation_cases self fp)
    as [(e' & He' & Hscan) | [(Hno & _) | (c & Hc & _)]].
  - rewrite He' in He. injection He as ->.
    destruct Hscan as [Hs | Hs];
      destruct (scan_raise _ _ _ Hs) as (regex & c & -> & Hin & Hnone); eauto 6.
  - rewrite Hno in He. discriminate.
  - rewrite Hc in He. discriminate.
Qed.

(** C8. Every placement row carries, for its footprint and the auxiliary
    origin, x = ToMM(raw_x - origin.x) and y = -ToMM(raw_y - origin.y),
    the conversion to millimetres being the only operation applied to the
    differences; the raw point is the footprint's position when it is
    surface-mount and the centre of its bounding box otherwise. *)
Theorem placement_coordinates (self : Fabrication) (p : parent) (w : world) :
  (generate_cpl self p w).2 = Ok tt ->
  let origin := GetAuxOrigin (self_board self) in
  exists rows,
    files (generate_cpl self p w).1.2 !! cpl_path self
    = Some (cpl_header :: rows)
    /\ Forall2
         (fun (ptfp : part * footprint) (row : list cell) =>
            let raw :=
              if is_surface_mount ptfp.2 then GetPosition ptfp.2
              else GetCenter (GetBoundingBox ptfp.2) in
            exists x y,
              row !! 3%nat = Some (CNum x) /\ row !! 4%nat = Some (CNum y)
              /\ x = ToMM (px raw - px origin)
              /\ (y == - ToMM (py raw - py origin))%Q)
         (placement_pairs (self_board self)
            (gerber_setting p "lcsc_bom_pos") (read_pos_parts p))
         rows.
Proof.
  intros Hout origin.
  destruct (generate_cpl_spec self p w) as (_ & rows & Hfile & _ & Hexp).
  rewrite Hout in Hexp. simpl in Hexp.
  exists rows. split; [exact Hfile|].
  eapply Forall2_impl; [exact Hexp|].
  intros [pt fp] row (rotation & _ & ->). simpl.
  unfold get_position, get_smd.
  eexists _, _. split; [reflexivity|]. split; [reflexivity|].
  split; [reflexivity|]. unfold origin. ring.
Qed.

(** C9. When the patterns of the table compile, the export writes, after
    the header, exactly one row per (part, footprint) pair, in order: for
    every part entry, each footprint with its reference designator, except
    that a footprint excluded from placement gives no row and a part
    without a supplier id gives rows only when the flag [lcsc_bom_pos]
    is on; the flag is on when the settings do not mention it. *)
Theorem one_row_per_surviving_pair (self : Fabrication) (p : parent)
    (w : world) :
  (forall rule s, rule ∈ get_all_correction_data p -> re_search rule.1 s <> None) ->
  let add_without_lcsc := gerber_setting p "lcsc_bom_pos" in
  let pairs :=
    placement_pairs (self_board self) add_without_lcsc (read_pos_parts p) in
  (generate_cpl self p w).2 = Ok tt
  /\ (exists rows,
        files (generate_cpl self p w).1.2 !! cpl_path self
        = Some (cpl_header :: rows)
        /\ length rows = length pairs
        /\ Forall2 (row_of (generate_cpl self p w).1.1
                      (GetAuxOrigin (self_board self))) pairs rows)
  /\ (forall pt fp,
        (pt, fp) ∈ pairs
        <-> pt ∈ read_pos_parts p
            /\ fp ∈ GetFootprints (self_board self)
            /\ GetReference fp = part_0 pt
            /\ get_exclude_from_pos fp = false
            /\ (add_without_lcsc = true \/ truthy (part_4 pt) = true))
  /\ (default ∅ (settings p !! "gerber") !! "lcsc_bom_pos" = None ->
      add_without_lcsc = true).
Proof.
  intros Hok add_without_lcsc pairs.
  destruct (generate_cpl_spec self p w) as (Htab & rows & Hfile & _ & Hexp).
  fold add_without_lcsc in Hexp. fold pairs in Hexp.
  assert (Hout : (generate_cpl self p w).2 = Ok tt).
  { destruct (generate_cpl self p w).2 as [[]|e] eqn:E; [reflexivity|].
    exfalso. destruct Hexp as (pre & ptfp & post & _ & _ & He).
    destruct (fix_rotation_raise _ _ _ He) as (regex & c & s & _ & Hin & Hnone).
    rewrite Htab in Hin. exact (Hok _ s Hin Hnone). }
  split; [exact Hout|]. rewrite Hout in Hexp. simpl in Hexp.
  split; [|split].
  - exists rows. repeat split; [exact Hfile | | exact Hexp].
    symmetry. exact (Forall2_length _ _ _ Hexp).
  - intros pt fp. apply elem_of_placement_pairs.
  - intros Hnone. unfold add_without_lcsc, gerber_setting.
    rewrite Hnone. reflexivity.
Qed.

(** C10. For a top-side footprint that no rule matches, [fix_rotation]
    returns the raw rotation as it is, without a reduction modulo 360, and
    logs nothing; the row the export writes for it carries that same
    rotation, so an angle outside [[0, 360)] reaches the placement file. *)
Theorem top_unmatched_rotation_unchanged (self : Fabrication) (p : parent)
    (w : world) (pt : part) (fp : footprint) :
  GetLayer fp = 0 ->
  no_match (GetValue fp) (get_all_correction_data p) ->
  no_match (GetLibItemName fp) (get_all_correction_data p) ->
  (generate_cpl self p w).2 = Ok tt ->
  (pt, fp) ∈ placement_pairs (self_board self)
               (gerber_setting p "lcsc_bom_pos") (read_pos_parts p) ->
  fix_rotation (generate_cpl self p w).1.1 fp
  = (Ok (as_degrees (GetOrientation fp)), [])
  /\ exists rows row,
       files (generate_cpl self p w).1.2 !! cpl_path self
       = Some (cpl_header :: rows)
       /\ row ∈ rows
       /\ row = cpl_row (GetAuxOrigin (self_board self)) pt fp
                  (as_degrees (GetOrientation fp))
       /\ row !! 5%nat = Some (CNum (as_degrees (GetOrientation fp))).
Proof.
  intros Htop Hval Hpkg Hout Hin.
  destruct (generate_cpl_spec self p w) as (Htab & rows & Hfile & _ & Hexp).
  rewrite Hout in Hexp. simpl in Hexp.
  assert (Hfix : fix_rotation (generate_cpl self p w).1.1 fp
                 = (Ok (as_degrees (GetOrientation fp)), [])).
  { rewrite fix_rotation_unmatched by (rewrite Htab; assumption).
    unfold mirrored. rewrite Htop. reflexivity. }
  split; [exact Hfix|].
  apply list_elem_of_lookup in Hin as (i & Hi).
  destruct (Forall2_lookup_l _ _ _ _ _ Hexp Hi) as (row & Hrow & rot & Hrot & ->).
  simpl in Hrot. rewrite Hfix in Hrot. injection Hrot as <-.
  exists rows, (cpl_row (GetAuxOrigin (self_board self)) pt fp
                  (as_degrees (GetOrientation fp))).
  repeat split; [exact Hfile|].
  apply list_elem_of_lookup. exists i. exact Hrow.
Qed.

End PlacementClaims.

(** ** The properties on the example boards (KiCad 6 and 7 engine) *)

Lemma kicad_ToMM_exact (a b : Z) :
  (ToMM (Pcbnew := kicad) (a - b)
   == ToMM (Pcbnew := kicad) a - ToMM (Pcbnew := kicad) b)%Q.
Proof.
  simpl. rewrite !Qred_correct. unfold Z.sub.
  rewrite inject_Z_plus, inject_Z_opp. field.
Qed.

(** Two rules match the value [10k]: the first one, of offset 90, is
    applied. No rule matches the value [4k7]: the first rule that matches
    its package name, the second of the table, is applied. *)
Lemma fix_rotation_first_match_witness :
  (fix_rotation (H := kicad)
     (with_corrections resistor_board overlapping_rules) resistor_top).1
  = Ok 0%Q
  /\ (fix_rotation (H := kicad)
        (with_corrections resistor_board overlapping_rules) resistor_4k7).1
     = Ok 180%Q.
Proof.
  destruct (fix_rotation_first_match (H := kicad)
              (with_corrections resistor_board overlapping_rules) resistor_top)
    as (Hvalue & _).
  destruct (fix_rotation_first_match (H := kicad)
              (with_corrections resistor_board overlapping_rules) resistor_4k7)
    as (_ & Hpackage & _).
  split.
  - rewrite (Hvalue [] "10k" 90 [("10", 180); ("0402", 270)]).
    + reflexivity.
    + reflexivity.
    + constructor.
    + vm_compute. reflexivity.
  - rewrite (Hpackage [("10k", 90)] "10" 180 [("0402", 270)]).
    + reflexivity.
    + reflexivity.
    + repeat constructor.
    + repeat constructor.
    + vm_compute. reflexivity.
Defined.

Lemma bottom_45_offset_180_witness :
  exists r,
    (fix_rotation (H := kicad)
       (with_corrections sot23_board [("SOT-23", 180)]) sot23_bottom).1 = Ok r
    /\ (r == 315)%Q.
Proof.
  apply (bottom_45_offset_180 (H := kicad)
           (with_corrections sot23_board [("SOT-23", 180)]) sot23_bottom
           "SOT-23").
  - simpl. lia.
  - reflexivity.
  - reflexivity.
  - vm_compute. reflexivity.
  - vm_compute. reflexivity.
Defined.

Lemma sot23_table_compiles (rule : string * Z) (s : string) :
  rule ∈ [("SOT-23", 180)] -> re_search (Pcbnew := kicad) rule.1 s <> None.
Proof.
  intros Hin. apply list_elem_of_singleton in Hin as ->. discriminate.
Qed.

(** The whole export of the regulator board: one row, at (100, -50),
    turned to 315 degrees, on the bottom side, and the correction logged. *)
Lemma sot23_export :
  let res := generate_cpl (H := kicad) (Fabrication_init sot23_board)
               sot23_parent empty_world in
  res.2 = Ok tt
  /\ files res.1.2 !! "/home/u/proj/jlcpcb/production_files/CPL-board.csv"
     = Some [cpl_header;
             [CStr "U1"; CStr "LM1117"; CStr "SOT-23"; CNum 100; CNum (-50);
              CNum 315; CStr "bottom"]]
  /\ length (log res.1.2) = 2%nat.
Proof. repeat split; vm_compute; reflexivity. Qed.

(** A legacy angle of 450 tenths of a degree is the same scenario. *)
Lemma sot23_legacy_angle :
  exists r,
    (fix_rotation (H := kicad)
       (with_corrections sot23_board [("SOT-23", 180)])
       (Footprint "U1" "LM1117" "SOT-23" (Decidegrees 450) 31
          (Point (nm 100) (nm 50))
          (Box (Point (nm 98) (nm 49)) (Point (nm 4) (nm 2))) true false)).1
    = Ok r /\ (r == 315)%Q.
Proof. eexists. split; [reflexivity|]. vm_compute. reflexivity. Qed.

Lemma plot_plan_by_layer_count_witness :
  length (plot_plan (H := kicad) 4) = Z.to_nat (4 + 8).
Proof.
  apply (plot_plan_by_layer_count (H := kicad) 4). lia.
Defined.

Lemma skip_npth_follows_layer_number_witness :
  skip_flags
    (generate_geber (H := kicad) (Fabrication_init sot23_board) (Some 4)
       (fun _ => true)).1
  = [true; false; false; false; true; true; true; false; false; false; false;
     false].
Proof.
  destruct (skip_npth_follows_layer_number (H := kicad)
              (Fabrication_init sot23_board) (Some 4) (fun _ => true))
    as (_ & Hflags).
  rewrite Hflags; simpl; try lia. reflexivity.
Defined.

Lemma placement_coordinates_witness :
  exists rows,
    files (generate_cpl (H := kicad) (Fabrication_init resistor_board)
             resistor_parent empty_world).1.2
      !! cpl_path (Fabrication_init resistor_board)
    = Some (cpl_header :: rows)
    /\ Forall2
         (fun (ptfp : part * footprint) (row : list cell) =>
            exists x y,
              row !! 3%nat = Some (CNum x) /\ row !! 4%nat = Some (CNum y)
              /\ x = 5%Q /\ (y == -10 # 1)%Q)
         [(resistor_part, resistor_top)] rows.
Proof.
  destruct (placement_coordinates (H := kicad)
              (Fabrication_init resistor_board) resistor_parent empty_world)
    as (rows & Hfile & Hrows).
  - vm_compute. reflexivity.
  - exists rows. split; [exact Hfile|].
    change (placement_pairs _ _ _) with [(resistor_part, resistor_top)] in Hrows.
    apply Forall2_cons_inv_l in Hrows
      as (row & rows' & (x & y & Hx & Hy & Hx' & Hy') & Hnil & ->).
    apply Forall2_nil_inv_l in Hnil as ->.
    constructor; [|constructor].
    exists x, y. repeat split; [exact Hx | exact Hy | exact Hx' | exact Hy'].
Defined.

(** With the flag off, the two capacitors under [C1] give a row each, the
    excluded hole and the connector without a supplier id give none. *)
Lemma one_row_per_surviving_pair_witness :
  (generate_cpl (H := kicad) (Fabrication_init mixed_board)
     (mixed_parent lcsc_only) empty_world).2 = Ok tt
  /\ exists rows,
       files (generate_cpl (H := kicad) (Fabrication_init mixed_board)
                (mixed_parent lcsc_only) empty_world).1.2
         !! cpl_path (Fabrication_init mixed_board)
       = Some (cpl_header :: rows)
       /\ length rows = 2%nat.
Proof.
  destruct (one_row_per_surviving_pair (H := kicad)
              (Fabrication_init mixed_board) (mixed_parent lcsc_only)
              empty_world sot23_table_compiles)
    as (Hout & (rows & Hfile & Hlen & _) & _).
  split; [exact Hout|]. exists rows. split; [exact Hfile | exact Hlen].
Defined.

(** The raw rotation of -90 degrees reaches the placement row. *)
Lemma top_unmatched_rotation_unchanged_witness :
  exists rows row,
    files (generate_cpl (H := kicad) (Fabrication_init resistor_board)
             resistor_parent empty_world).1.2
      !! cpl_path (Fabrication_init resistor_board)
    = Some (cpl_header :: rows)
    /\ row ∈ rows
    /\ row !! 5%nat = Some (CNum (-90 # 1)).
Proof.
  destruct (top_unmatched_rotation_unchanged (H := kicad)
              (Fabrication_init resistor_board) resistor_parent empty_world
              resistor_part resistor_top)
    as (_ & rows & row & Hfile & Hin & _ & Hrot).
  - reflexivity.
  - repeat constructor.
  - repeat constructor.
  - vm_compute. reflexivity.
  - left.
  - exists rows, row. repeat split; assumption.
Defined.

(** ** Where the code departs from the specification's wording *)


(** C2, as the specification states it, fails: on a two-layer board the
    flag is already false for Top-Silkscreen, Top-Mask and Top-Paste, which
    come before Bottom-Copper in the plan, so the flags are not a run of
    [true] followed by a run of [false]; and a one-layer plan has no
    Bottom-Copper entry for such a run to end at, whatever the layer
    numbers are. *)
Lemma skip_flags_not_a_prefix :
  skip_flags
    (generate_geber (H := kicad) (Fabrication_init sot23_board) (Some 2)
       (fun _ => true)).1
  = [true; false; false; false; true; false; false; false; false; false]
  /\ (plot_plan (H := kicad) 2).*1.*1
     = ["CuTop"; "SilkTop"; "MaskTop"; "PasteTop"; "CuBottom"; "SilkBottom";
        "MaskBottom"; "PasteBottom"; "EdgeCuts"; "VScore"]
  /\ (forall engine : Pcbnew,
        "CuBottom" ∉ (plot_plan (H := engine) 1).*1.*1)
  /\ ~ exists k : nat,
         skip_flags
           (generate_geber (H := kicad) (Fabrication_init sot23_board)
              (Some 2) (fun _ => true)).1
         = replicate k true ++ replicate (10 - k) false.
Proof.
  split; [reflexivity|]. split; [reflexivity|]. split.
  { intros engine Hin. simpl in Hin.
    repeat (apply elem_of_cons in Hin as [Hin | Hin]; [discriminate|]).
    inversion Hin. }
  intros [k Hk]. vm_compute skip_flags in Hk.
  do 11 (destruct k as [|k]; [discriminate|]). discriminate.
Qed.

(** * Further properties of the code *)

Lemma string_app_inv_head (s x y : string) : s +:+ x = s +:+ y -> x = y.
Proof.
  induction s as [|c s IH]; simpl; [auto|].
  intros Heq. injection Heq as Heq. exact (IH Heq).
Qed.

(** ** The plot plan and the plot loop *)

Section GerberExtras.
Context `{Pcbnew}.

Lemma plot_layers_opened (plotter : Z -> bool)
    (plan : list (string * Z * string)) :
  opened (plot_layers plotter plan).1 = plan_names plan.
Proof.
  induction plan as [|layer_info plan IH]; [reflexivity|].
  simpl. destruct (plot_layers plotter plan) as [calls logs]. simpl in *.
  unfold opened in *.
  destruct (layer_info.1.2 <=? B_Cu); simpl; rewrite IH; reflexivity.
Qed.

Lemma plot_layers_length (plotter : Z -> bool)
    (plan : list (string * Z * string)) :
  length (plot_layers plotter plan).1 = (4 * length plan)%nat.
Proof.
  induction plan as [|layer_info plan IH]; [reflexivity|].
  simpl. destruct (plot_layers plotter plan) as [calls logs]. simpl in *.
  rewrite IH. lia.
Qed.

Lemma inner_names (layers : list Z) :
  plan_names (inner_entry <$> layers)
  = (fun layer => "CuIn" +:+ pretty layer) <$> layers.
Proof.
  unfold plan_names. rewrite <- list_fmap_compose. reflexivity.
Qed.

Lemma plot_plan_names_NoDup (n : Z) : NoDup (plan_names (plot_plan n)).
Proof.
  unfold plot_plan.
  destruct (n =? 1); [apply (bool_decide_unpack _); vm_compute; exact I|].
  destruct (n =? 2); [apply (bool_decide_unpack _); vm_compute; exact I|].
  unfold plan_names. rewrite !fmap_app.
  fold (plan_names (inner_entry <$> seqZ 1 (n - 2))). rewrite inner_names.
  assert (Hinner : forall x,
             x ∈ (fun layer => "CuIn" +:+ pretty layer) <$> seqZ 1 (n - 2) ->
             exists rest, x = "CuIn" +:+ rest).
  { intros x Hx. apply list_elem_of_fmap in Hx as (layer & -> & _). eauto. }
  apply NoDup_app. split; [|split].
  - apply (bool_decide_unpack _). vm_compute. exact I.
  - intros x Hx Hin. apply elem_of_app in Hin as [Hin | Hin].
    + destruct (Hinner _ Hin) as (rest & ->). simpl in Hx.
      repeat (apply elem_of_cons in Hx as [Hx | Hx]; [discriminate|]).
      inversion Hx.
    + simpl in Hx, Hin.
      repeat (apply elem_of_cons in Hx as [-> | Hx];
              [repeat (apply elem_of_cons in Hin as [Hin | Hin];
                       [discriminate|]); inversion Hin|]).
      inversion Hx.
  - apply NoDup_app. split; [|split].
    + apply NoDup_fmap_2; [|apply NoDup_seqZ].
      intros a b Hab. apply pretty_Z_inj.
      exact (string_app_inv_head "CuIn" _ _ Hab).
    + intros x Hx Hin. destruct (Hinner _ Hx) as (rest & ->). simpl in Hin.
      repeat (apply elem_of_cons in Hin as [Hin | Hin]; [discriminate|]).
      inversion Hin.
    + apply (bool_decide_unpack _). vm_compute. exact I.
Qed.

(** X4. Whatever the layer count is and whatever the plotter answers,
    every planned layer is opened exactly once, in plan order and under a
    name no other layer of the run has, and the run ends with
    [ClosePlot]: a layer that fails to plot does not stop the loop. *)
Theorem every_layer_opened_once (self : Fabrication) (layer_count : option Z)
    (plotter : Z -> bool) :
  let calls := (generate_geber self layer_count plotter).1 in
  let plan := plot_plan (effective_layer_count self layer_count) in
  opened calls = plan_names plan
  /\ NoDup (opened calls)
  /\ last calls = Some ClosePlot
  /\ length calls = (4 * length plan + 1)%nat.
Proof.
  intros calls plan. unfold calls, generate_geber. fold plan.
  pose proof (plot_layers_opened plotter plan) as Ho.
  pose proof (plot_layers_length plotter plan) as Hl.
  destruct (plot_layers plotter plan) as [cs logs]. simpl in *.
  assert (Hopened : opened (cs ++ [ClosePlot]) = plan_names plan).
  { unfold opened in *. rewrite omap_app, Ho. simpl. apply app_nil_r. }
  repeat split.
  - exact Hopened.
  - rewrite Hopened. apply plot_plan_names_NoDup.
  - apply last_snoc.
  - rewrite length_app, Hl. simpl. lia.
Qed.

(** X5. The plan has 6 entries for one layer and [10 + max (n - 2) 0]
    otherwise; a layer count of zero or below is not refused: it is planned
    like a two-layer board. *)
Theorem plot_plan_length (n : Z) :
  length (plot_plan n)
  = (if n =? 1 then 6%nat else (10 + Z.to_nat (n - 2))%nat)
  /\ (n <= 2 -> n <> 1 -> plot_plan n = plot_plan_top ++ plot_plan_bottom).
Proof.
  unfold plot_plan. split.
  - destruct (n =? 1); [reflexivity|]. destruct (Z.eqb_spec n 2) as [-> | Hn].
    + reflexivity.
    + rewrite !length_app, length_fmap, length_seqZ. simpl. lia.
  - intros Hle Hne. destruct (Z.eqb_spec n 1); [lia|].
    destruct (n =? 2); [reflexivity|].
    rewrite seqZ_nil by lia. reflexivity.
Qed.

(** X6. For more than two layers the layer ids of the plan are pairwise
    distinct exactly when the ten fixed layers have distinct ids and none
    of them is numbered between 1 and [n - 2], the numbers given to the
    inner layers; no bound on the layer count keeps the inner numbers
    away from the fixed ones. *)
Theorem plan_layers_distinct (n : Z) :
  2 < n ->
  NoDup (plan_layers (plot_plan n))
  <-> NoDup (plan_layers (plot_plan_top ++ plot_plan_bottom))
      /\ forall layer,
           layer ∈ plan_layers (plot_plan_top ++ plot_plan_bottom) ->
           ~ (1 <= layer <= n - 2).
Proof.
  intros Hn. unfold plot_plan.
  destruct (Z.eqb_spec n 1); [lia|]. destruct (Z.eqb_spec n 2); [lia|].
  unfold plan_layers. rewrite !fmap_app, inner_layer_ids.
  set (top := (fun layer_info : string * Z * string => layer_info.1.2)
                <$> plot_plan_top).
  set (bottom := (fun layer_info : string * Z * string => layer_info.1.2)
                   <$> plot_plan_bottom).
  rewrite !NoDup_app.
  assert (Hseq : forall x, x ∈ seqZ 1 (n - 2) <-> 1 <= x <= n - 2).
  { intros x. rewrite elem_of_seqZ. lia. }
  split.
  - intros (Htop & Hdisj & _ & Hdisj' & Hbottom). split; [split; [|split]|].
    + exact Htop.
    + intros x Hx Hin. apply (Hdisj x Hx). apply elem_of_app. auto.
    + exact Hbottom.
    + intros x Hx Hrange. apply elem_of_app in Hx as [Hx | Hx].
      * apply (Hdisj x Hx). apply elem_of_app. left. apply Hseq. exact Hrange.
      * apply (Hdisj' x); [apply Hseq; exact Hrange | exact Hx].
  - intros ((Htop & Hdisj & Hbottom) & Hfree). split; [|split; [|split; [|split]]].
    + exact Htop.
    + intros x Hx Hin. apply elem_of_app in Hin as [Hin | Hin].
      * apply (Hfree x); [apply elem_of_app; auto | apply Hseq; exact Hin].
      * exact (Hdisj x Hx Hin).
    + apply NoDup_seqZ.
    + intros x Hx Hin.
      apply (Hfree x); [apply elem_of_app; auto | apply Hseq; exact Hx].
    + exact Hbottom.
Qed.

Lemma plot_layers_log (plotter : Z -> bool)
    (plan : list (string * Z * string)) (record : log_record) :
  record ∈ (plot_layers plotter plan).2
  <-> exists layer_info,
        layer_info ∈ plan
        /\ (record = LogRecord INFO "Successfully plotted %s" [AStr layer_info.2]
            \/ (plotter layer_info.1.2 = false
                /\ record = LogRecord ERROR "Error plotting %s"
                              [AStr layer_info.2])).
Proof.
  induction plan as [|layer_info plan IH].
  - simpl. split; [intros Hin; inversion Hin|].
    intros (e & Hin & _). inversion Hin.
  - simpl. destruct (plot_layers plotter plan) as [calls logs]. simpl in *.
    rewrite !elem_of_app, IH. split.
    + intros [[Herr | Hinfo] | (e & Hin & He)].
      * destruct (plotter layer_info.1.2) eqn:Ep; [inversion Herr|].
        apply list_elem_of_singleton in Herr.
        exists layer_info. split; [left|]. right. auto.
      * apply list_elem_of_singleton in Hinfo.
        exists layer_info. split; [left|]. left. exact Hinfo.
      * exists e. split; [right; exact Hin | exact He].
    + intros (e & Hin & He). apply elem_of_cons in Hin as [-> | Hin].
      * left. destruct He as [-> | (Hp & ->)].
        -- right. left.
        -- left. rewrite Hp. left.
      * right. exists e. auto.
Qed.

(** X7. The log of a Gerber run holds, for every planned layer, the record
    that it was plotted successfully, also for a layer whose plot failed;
    an error record is there exactly for the layers whose plot failed. *)
Theorem success_logged_for_every_layer (self : Fabrication)
    (layer_count : option Z) (plotter : Z -> bool) :
  let logs := (generate_geber self layer_count plotter).2 in
  let plan := plot_plan (effective_layer_count self layer_count) in
  (forall layer_info,
      layer_info ∈ plan ->
      LogRecord INFO "Successfully plotted %s" [AStr layer_info.2] ∈ logs)
  /\ (forall label,
        LogRecord ERROR "Error plotting %s" [AStr label] ∈ logs
        <-> exists layer_info,
              layer_info ∈ plan /\ layer_info.2 = label
              /\ plotter layer_info.1.2 = false).
Proof.
  intros logs plan.
  assert (Hlogs : logs = (plot_layers plotter plan).2).
  { unfold logs, generate_geber. fold plan.
    destruct (plot_layers plotter plan); reflexivity. }
  rewrite Hlogs. split.
  - intros e Hin. apply plot_layers_log. exists e. auto.
  - intros label. rewrite plot_layers_log. split.
    + intros (e & Hin & [Hinfo | (Hp & Herr)]); [discriminate|].
      injection Herr as ->. exists e. auto.
    + intros (e & Hin & <- & Hp). exists e. auto.
Qed.

End GerberExtras.

(** ** The placement and BOM files *)

Section FileExtras.
Context `{Pcbnew}.

Lemma fix_rotation_corrections (self self' : Fabrication) (fp : footprint) :
  corrections self = corrections self' ->
  fix_rotation self fp = fix_rotation self' fp.
Proof. intros Heq. unfold fix_rotation. rewrite Heq. reflexivity. Qed.

Lemma export_rows_corrections (self self' : Fabrication) (aux_orgin : point)
    (pairs : list (part * footprint)) :
  corrections self = corrections self' ->
  export_rows self aux_orgin pairs = export_rows self' aux_orgin pairs.
Proof.
  intros Heq. induction pairs as [|ptfp pairs IH]; [reflexivity|].
  simpl. rewrite (fix_rotation_corrections self self' _ Heq), IH. reflexivity.
Qed.

Lemma exported_export_rows (self : Fabrication) (aux_orgin : point)
    (pairs : list (part * footprint)) (rows : list (list cell))
    (out : result unit) :
  exported self aux_orgin pairs rows out ->
  export_rows self aux_orgin pairs = (rows, out).
Proof.
  destruct out as [[]|e]; simpl.
  - induction 1 as [|ptfp row pairs rows (rot & Hrot & ->) _ IH];
      [reflexivity|].
    simpl. rewrite Hrot, IH. reflexivity.
  - intros (pre & ptfp & post & -> & Hpre & He).
    induction Hpre as [|ptfp' row pre rows (rot & Hrot & ->) _ IH]; simpl.
    + rewrite He. reflexivity.
    + rewrite Hrot, IH. reflexivity.
Qed.

(** The CPL file and the outcome of [generate_cpl] as functions of the
    board, the library table, the settings and the part list. *)
Lemma generate_cpl_rows (self : Fabrication) (p : parent) (w : world) :
  let res := generate_cpl self p w in
  let rows :=
    export_rows res.1.1 (GetAuxOrigin (self_board self))
      (placement_pairs (self_board self)
         (gerber_setting p "lcsc_bom_pos") (read_pos_parts p)) in
  files res.1.2 !! cpl_path self = Some (cpl_header :: rows.1)
  /\ res.2 = rows.2.
Proof.
  intros res rows.
  destruct (generate_cpl_spec self p w) as (_ & rows' & Hfile & _ & Hexp).
  apply exported_export_rows in Hexp. fold res in Hfile, Hexp.
  unfold rows. rewrite Hexp. simpl. auto.
Qed.

(** X8. The placement file is written anew on every export: its content
    and the outcome of the export depend on the board, the output
    directory, the file name, the library's table, the settings and the
    part list only, not on what was on disk nor on corrections loaded
    before; so an export repeated on its own result writes the same file. *)
Theorem cpl_export_overwrites (self1 self2 : Fabrication) (p : parent)
    (w1 w2 : world) :
  self_board self1 = self_board self2 ->
  outputdir self1 = outputdir self2 ->
  filename self1 = filename self2 ->
  let res1 := generate_cpl self1 p w1 in
  let res2 := generate_cpl self2 p w2 in
  cpl_path self1 = cpl_path self2
  /\ files res1.1.2 !! cpl_path self1 = files res2.1.2 !! cpl_path self2
  /\ res1.2 = res2.2
  /\ files (generate_cpl res1.1.1 p res1.1.2).1.2 !! cpl_path self1
     = files res1.1.2 !! cpl_path self1.
Proof.
  intros Hboard Hdir Hname res1 res2.
  assert (Hpath : cpl_path self1 = cpl_path self2).
  { unfold cpl_path. rewrite Hdir, Hname. reflexivity. }
  destruct (generate_cpl_rows self1 p w1) as (Hf1 & Ho1).
  destruct (generate_cpl_rows self2 p w2) as (Hf2 & Ho2).
  destruct (generate_cpl_spec self1 p w1) as (Hc1 & _).
  destruct (generate_cpl_spec self2 p w2) as (Hc2 & _).
  fold res1 in Hf1, Ho1, Hc1. fold res2 in Hf2, Ho2, Hc2.
  assert (Hrows : forall pairs,
             export_rows res1.1.1 (GetAuxOrigin (self_board self1)) pairs
             = export_rows res2.1.1 (GetAuxOrigin (self_board self2)) pairs).
  { intros pairs. rewrite Hboard.
    apply export_rows_corrections. congruence. }
  split; [exact Hpath|]. split; [|split].
  - rewrite Hf1, Hf2, Hrows, Hboard. reflexivity.
  - rewrite Ho1, Ho2, Hrows, Hboard. reflexivity.
  - assert (Hself : self_board res1.1.1 = self_board self1
                    /\ cpl_path res1.1.1 = cpl_path self1).
    { unfold res1, generate_cpl.
      destruct (cpl_parts _ _ _ _ _ _) as [w' [u|e]]; simpl; auto. }
    destruct Hself as (Hb & Hp).
    destruct (generate_cpl_rows res1.1.1 p res1.1.2) as (Hf3 & _).
    destruct (generate_cpl_spec res1.1.1 p res1.1.2) as (Hc3 & _).
    rewrite Hp in Hf3. rewrite Hf3, Hf1, Hb.
    rewrite (export_rows_corrections _ res1.1.1) by congruence.
    reflexivity.
Qed.

Lemma fix_rotation_log_fmt (self : Fabrication) (fp : footprint) :
  Forall (fun record => log_fmt record <> "Finished generating CPL file")
         (fix_rotation self fp).2.
Proof.
  destruct (fix_rotation_cases self fp)
    as [(e & -> & _) | [(-> & _) | (c & -> & _)]]; simpl; try constructor.
  unfold rotate.
  destruct (GetLayer fp =? 0); simpl; (constructor; [discriminate | constructor]).
Qed.

Lemma cpl_footprints_log (self : Fabrication) (aux_orgin : point)
    (add_without_lcsc : bool) (csvfile : string) (pt : part)
    (fps : list footprint) (w : world) :
  exists added,
    log (cpl_footprints self aux_orgin add_without_lcsc csvfile pt fps w).1
    = log w ++ added
    /\ Forall (fun record => log_fmt record <> "Finished generating CPL file")
              added.
Proof.
  revert w. induction fps as [|fp fps IH]; intros w.
  - exists []. simpl. rewrite app_nil_r. auto.
  - simpl. destruct (get_exclude_from_pos fp); [apply IH|].
    destruct (negb add_without_lcsc && negb (truthy (part_4 pt))); [apply IH|].
    pose proof (fix_rotation_log_fmt self fp) as Hfmt.
    destruct (fix_rotation self fp) as [[rotation|e] logs]; simpl in *.
    + destruct (IH (writerow csvfile (cpl_row aux_orgin pt fp rotation)
                      (emit logs w))) as (added & -> & Hadded).
      exists (logs ++ added). simpl. rewrite app_assoc. split; [reflexivity|].
      apply Forall_app. auto.
    + exists logs. auto.
Qed.

Lemma cpl_parts_log (self : Fabrication) (aux_orgin : point)
    (add_without_lcsc : bool) (csvfile : string)
    (parts : list part) (w : world) :
  exists added,
    log (cpl_parts self aux_orgin add_without_lcsc csvfile parts w).1
    = log w ++ added
    /\ Forall (fun record => log_fmt record <> "Finished generating CPL file")
              added.
Proof.
  revert w. induction parts as [|pt parts IH]; intros w.
  - exists []. simpl. rewrite app_nil_r. auto.
  - simpl.
    destruct (cpl_footprints_log self aux_orgin add_without_lcsc csvfile pt
                (get_footprint_by_ref (self_board self) (part_0 pt)) w)
      as (added1 & Hlog1 & Hfmt1).
    destruct (cpl_footprints self aux_orgin add_without_lcsc csvfile pt
                (get_footprint_by_ref (self_board self) (part_0 pt)) w)
      as [w1 [u|e]]; simpl in *.
    + destruct (IH w1) as (added2 & -> & Hfmt2).
      exists (added1 ++ added2). rewrite Hlog1, app_assoc.
      split; [reflexivity|]. apply Forall_app. auto.
    + exists added1. auto.
Qed.

(** X9. An export of the placement file leaves every other file as it
    was, on success and on failure, and only adds to the log; the record
    that the CPL file is finished is added exactly when the export did
    not raise. *)
Theorem cpl_export_frame (self : Fabrication) (p : parent) (w : world) :
  let res := generate_cpl self p w in
  (forall q, q <> cpl_path self -> files res.1.2 !! q = files w !! q)
  /\ exists added,
       log res.1.2 = log w ++ added
       /\ (LogRecord INFO "Finished generating CPL file" [] ∈ added
           <-> res.2 = Ok tt).
Proof.
  intros res. split.
  - destruct (generate_cpl_spec self p w) as (_ & rows & _ & Hframe & _).
    exact Hframe.
  - unfold res, generate_cpl.
    set (self' := {| self_board := self_board self;
                     corrections := get_all_correction_data p;
                     path := path self; filename := filename self;
                     outputdir := outputdir self;
                     gerberdir := gerberdir self |}).
    set (w0 := writerow (cpl_path self') cpl_header
                 (open_w (cpl_path self') w)).
    destruct (cpl_parts_log self' (GetAuxOrigin (self_board self'))
                (gerber_setting p "lcsc_bom_pos") (cpl_path self')
                (read_pos_parts p) w0) as (added & Hlog & Hfmt).
    destruct (cpl_parts self' _ _ _ _ w0) as [w1 [[]|e]]; simpl in *.
    + exists (added ++ [LogRecord INFO "Finished generating CPL file" []]).
      rewrite Hlog, app_assoc. split; [reflexivity|].
      split; [reflexivity|]. intros _. apply elem_of_app. right. left.
    + exists added. split; [exact Hlog|]. split; [|discriminate].
      intros Hin. exfalso.
      rewrite Forall_forall in Hfmt. exact (Hfmt _ Hin eq_refl).
Qed.

(** X10. When no (part, footprint) pair is left to export (no parts, no
    footprint under their references, or all of them skipped), the export
    succeeds and leaves a file with the header row only, whatever the
    correction table holds: a pattern is looked at only when a footprint
    is scanned against it. *)
Theorem cpl_export_nothing_to_place (self : Fabrication) (p : parent)
    (w : world) :
  placement_pairs (self_board self)
    (gerber_setting p "lcsc_bom_pos") (read_pos_parts p) = [] ->
  (generate_cpl self p w).2 = Ok tt
  /\ files (generate_cpl self p w).1.2 !! cpl_path self = Some [cpl_header].
Proof.
  intros Hnone.
  destruct (generate_cpl_rows self p w) as (Hfile & Hout).
  rewrite Hnone in Hfile, Hout. simpl in *. auto.
Qed.

Lemma bom_parts_spec (csvfile : string) (parts : list (list string))
    (w : world) :
  appended csvfile ((fun pt : list string => CStr <$> pt) <$> parts) w
    (bom_parts csvfile parts w)
  /\ log (bom_parts csvfile parts w) = log w.
Proof.
  revert w. induction parts as [|pt parts IH]; intros w.
  - split; [apply appended_nil|]; reflexivity.
  - simpl. destruct (IH (writerow csvfile (CStr <$> pt) w)) as (Happ & Hlog).
    split; [|exact Hlog].
    exact (appended_trans _ [_] _ _ _ _ (appended_writerow _ _ _) Happ).
Qed.

Lemma generate_bom_spec (self : Fabrication) (p : parent) (w : world) :
  files (generate_bom self p w) !! bom_path self
  = Some (bom_header :: ((fun pt : list string => CStr <$> pt) <$> read_bom_parts p))
  /\ (forall q, q <> bom_path self ->
                files (generate_bom self p w) !! q = files w !! q)
  /\ log (generate_bom self p w)
     = log w ++ [LogRecord INFO "Finished generating BOM file" []].
Proof.
  unfold generate_bom.
  set (w0 := writerow (bom_path self) bom_header (open_w (bom_path self) w)).
  destruct (bom_parts_spec (bom_path self) (read_bom_parts p) w0)
    as ((Hfile & Hframe) & Hlog).
  simpl. split; [|split].
  - rewrite Hfile. unfold w0, writerow, open_w. simpl.
    rewrite lookup_alter_eq, lookup_insert_eq. reflexivity.
  - intros q Hq. rewrite Hframe by exact Hq. unfold w0, writerow, open_w. simpl.
    rewrite lookup_alter_ne, lookup_insert_ne by congruence. reflexivity.
  - rewrite Hlog. reflexivity.
Qed.

(** X11. The BOM export leaves a file that holds the header row and then
    one row per part group of the store, in the store's order and with its
    fields as they are, whatever the file held before, so that a repeated
    export writes the same file; every other file is left as it was and
    one record is logged. *)
Theorem bom_export (self : Fabrication) (p : parent) (w : world) :
  files (generate_bom self p w) !! bom_path self
  = Some (bom_header :: ((fun pt : list string => CStr <$> pt) <$> read_bom_parts p))
  /\ length <$> files (generate_bom self p w) !! bom_path self
     = Some (S (length (read_bom_parts p)))
  /\ files (generate_bom self p (generate_bom self p w)) !! bom_path self
     = files (generate_bom self p w) !! bom_path self
  /\ (forall q, q <> bom_path self ->
                files (generate_bom self p w) !! q = files w !! q)
  /\ log (generate_bom self p w)
     = log w ++ [LogRecord INFO "Finished generating BOM file" []].
Proof.
  destruct (generate_bom_spec self p w) as (Hfile & Hframe & Hlog).
  destruct (generate_bom_spec self p (generate_bom self p w)) as (Hfile' & _).
  repeat split; try assumption.
  - rewrite Hfile. simpl. rewrite length_fmap. reflexivity.
  - rewrite Hfile', Hfile. reflexivity.
Qed.

Lemma cpl_bom_paths (self : Fabrication) : cpl_path self <> bom_path self.
Proof.
  unfold cpl_path, bom_path, os_path_join. simpl.
  destruct (String.eqb (outputdir self) "" || ends_with_slash (outputdir self));
    intros Heq; apply string_app_inv_head in Heq; discriminate.
Qed.

(** X12. The placement file and the BOM file of a board are two different
    files, so the two exports do not disturb each other: the BOM export
    leaves the placement file as the placement export wrote it, and the
    placement export leaves the BOM file as the BOM export wrote it. *)
Theorem cpl_and_bom_independent (self : Fabrication) (p : parent) (w : world) :
  cpl_path self <> bom_path self
  /\ files (generate_bom self p (generate_cpl self p w).1.2) !! cpl_path self
     = files (generate_cpl self p w).1.2 !! cpl_path self
  /\ files (generate_cpl self p (generate_bom self p w)).1.2 !! bom_path self
     = files (generate_bom self p w) !! bom_path self.
Proof.
  pose proof (cpl_bom_paths self) as Hne. split; [exact Hne|]. split.
  - destruct (generate_bom_spec self p (generate_cpl self p w).1.2)
      as (_ & Hframe & _).
    apply Hframe. exact Hne.
  - destruct (generate_cpl_spec self p (generate_bom self p w))
      as (_ & rows & _ & Hframe & _).
    apply Hframe. congruence.
Qed.

End FileExtras.

(** ** Paths and names *)

Lemma has_slash_app (a b : string) :
  has_slash (a +:+ b) = has_slash a || has_slash b.
Proof.
  induction a as [|c a IH]; simpl; [reflexivity|].
  rewrite IH. apply orb_assoc.
Qed.

Lemma cut_last_slash_sep (a b : string) :
  has_slash b = false ->
  cut_last_slash (a +:+ String "/"%char b) = (a +:+ "/", b).
Proof.
  intros Hb. induction a as [|c a IH]; simpl.
  - rewrite Hb. reflexivity.
  - rewrite has_slash_app. simpl. rewrite orb_true_r, IH. reflexivity.
Qed.

Lemma cut_last_slash_plain (p : string) :
  has_slash p = false -> cut_last_slash p = (EmptyString, p).
Proof.
  destruct p as [|c p]; simpl; [reflexivity|].
  intros Hp. apply orb_false_iff in Hp as [Hc Hp]. rewrite Hp, Hc. reflexivity.
Qed.

Lemma cut_last_slash_tail (p : string) : has_slash (cut_last_slash p).2 = false.
Proof.
  induction p as [|c p IH]; simpl; [reflexivity|].
  destruct (has_slash p) eqn:Hp.
  - destruct (cut_last_slash p). exact IH.
  - destruct (Ascii.eqb c "/") eqn:Hc; simpl; [exact Hp|].
    rewrite Hc, Hp. reflexivity.
Qed.

Lemma ends_with_slash_inv (a : string) :
  ends_with_slash a = true -> exists a', a = a' +:+ "/".
Proof.
  induction a as [|c a IH]; simpl; [discriminate|].
  destruct a as [|c' a].
  - intros Hc. apply Ascii.eqb_eq in Hc as ->. exists EmptyString. reflexivity.
  - intros Ha. destruct (IH Ha) as (a' & ->). exists (String c a'). reflexivity.
Qed.

Lemma ends_with_slash_app (a b : string) :
  b <> EmptyString -> ends_with_slash (a +:+ b) = ends_with_slash b.
Proof.
  intros Hb. induction a as [|c a IH]; simpl; [reflexivity|].
  destruct (a +:+ b) as [|c' r] eqn:E; [|exact IH].
  destruct a; simpl in E; [contradiction | discriminate].
Qed.

Lemma all_slashes_open (a x : string) :
  a <> EmptyString -> ends_with_slash a = false -> all_slashes (a +:+ x) = false.
Proof.
  induction a as [|c a IH]; [contradiction|]. intros _ Hend. simpl in *.
  destruct a as [|c' a].
  - rewrite Hend. reflexivity.
  - rewrite (IH ltac:(discriminate) Hend). apply andb_false_r.
Qed.

Lemma rstrip_slash_sep (a : string) :
  a <> EmptyString -> ends_with_slash a = false -> rstrip_slash (a +:+ "/") = a.
Proof.
  induction a as [|c a IH]; [contradiction|]. intros _ Hend.
  change (String c a +:+ "/") with (String c (a +:+ "/")).
  cbn [rstrip_slash].
  change (String c (a +:+ "/")) with (String c a +:+ "/").
  rewrite all_slashes_open; [|discriminate | exact Hend].
  destruct a as [|c' a]; [reflexivity|].
  rewrite IH; [reflexivity | discriminate | exact Hend].
Qed.

Lemma before_dot_no_slash (s : string) :
  has_slash s = false -> has_slash (before_dot s) = false.
Proof.
  induction s as [|c s IH]; simpl; [reflexivity|].
  intros Hs. apply orb_false_iff in Hs as [Hc Hs].
  destruct (Ascii.eqb c "."); simpl; [reflexivity|].
  rewrite Hc, (IH Hs). reflexivity.
Qed.

Lemma before_dot_stem (stem ext : string) :
  before_dot stem = stem -> before_dot (stem +:+ "." +:+ ext) = stem.
Proof.
  induction stem as [|c stem IH]; simpl; [reflexivity|].
  destruct (Ascii.eqb c "."); [discriminate|].
  intros Heq. injection Heq as Heq. rewrite (IH Heq). reflexivity.
Qed.

Lemma split_join (a b : string) :
  has_slash b = false ->
  (os_path_split (os_path_join a b)).2 = b
  /\ (ends_with_slash a = false -> os_path_split (os_path_join a b) = (a, b)).
Proof.
  intros Hb.
  assert (Hjoin : os_path_join a b
                  = if String.eqb a "" || ends_with_slash a
                    then a +:+ b else a +:+ "/" +:+ b).
  { unfold os_path_join. destruct b as [|c b]; [reflexivity|].
    simpl in Hb. apply orb_false_iff in Hb as [Hc _].
    destruct c as [[] [] [] [] [] [] [] []]; try reflexivity. discriminate. }
  rewrite Hjoin. unfold os_path_split.
  destruct (String.eqb_spec a "") as [-> | Ha]; simpl.
  - change ("" +:+ b) with b. rewrite (cut_last_slash_plain b Hb). auto.
  - destruct (ends_with_slash a) eqn:Hend.
    + destruct (ends_with_slash_inv a Hend) as (a' & ->).
      replace ((a' +:+ "/") +:+ b) with (a' +:+ String "/"%char b).
      * rewrite (cut_last_slash_sep a' b Hb). split; [reflexivity | discriminate].
      * clear. induction a' as [|c a' IH]; [reflexivity|].
        change (String c (a' +:+ String "/"%char b)
                = String c ((a' +:+ "/") +:+ b)).
        f_equal. exact IH.
    + change (a +:+ "/" +:+ b) with (a +:+ String "/"%char b).
      rewrite (cut_last_slash_sep a b Hb). split; [reflexivity|]. intros _.
      rewrite all_slashes_open by assumption.
      rewrite rstrip_slash_sep by assumption. reflexivity.
Qed.

(** X13. Splitting a joined path gives the parts back: for a name [b]
    without a slash, [os.path.split(os.path.join(a, b))] has [b] as its
    file name, and [a] as its directory when [a] does not end in a
    slash. *)
Theorem path_join_split (a b : string) :
  has_slash b = false ->
  (os_path_split (os_path_join a b)).2 = b
  /\ os_path_basename (os_path_join a b) = b
  /\ (ends_with_slash a = false -> os_path_split (os_path_join a b) = (a, b)).
Proof.
  intros Hb. destruct (split_join a b Hb) as (Htail & Hboth).
  split; [exact Htail|]. split; [|exact Hboth].
  unfold os_path_basename. unfold os_path_split in Htail.
  destruct (cut_last_slash (os_path_join a b)). exact Htail.
Qed.

Lemma join_no_trailing_slash (a b : string) :
  b <> EmptyString -> has_slash b = false ->
  ends_with_slash (os_path_join a b) = false.
Proof.
  intros Hne Hb.
  assert (Hend : ends_with_slash b = false).
  { clear Hne. induction b as [|c b IH]; [reflexivity|]. simpl in *.
    apply orb_false_iff in Hb as [Hc Hb].
    destruct b; [exact Hc | exact (IH Hb)]. }
  unfold os_path_join. destruct b as [|c b]; [contradiction|].
  simpl in Hb. apply orb_false_iff in Hb as [Hc _].
  assert (Hcases : forall x, ends_with_slash (x +:+ String c b) = false).
  { intros x. rewrite ends_with_slash_app by discriminate. exact Hend. }
  destruct c as [[] [] [] [] [] [] [] []];
    try (destruct (String.eqb a "" || ends_with_slash a);
         [apply Hcases
         | rewrite ends_with_slash_app by discriminate; exact Hend]).
  vm_compute in Hc. discriminate.
Qed.

(** X14. For every board file name, the files of the production exports
    lie directly in the output directory set up by [__init__], the
    directory [production_files] under [jlcpcb], which is not the Gerber
    directory; the name of each file has no slash. *)
Theorem production_files_location (b : board) :
  let self := Fabrication_init b in
  os_path_split (cpl_path self)
  = (outputdir self, "CPL-" +:+ before_dot (filename self) +:+ ".csv")
  /\ os_path_split (bom_path self)
     = (outputdir self, "BOM-" +:+ before_dot (filename self) +:+ ".csv")
  /\ os_path_split (zip_gerber_excellon self []).1.1
     = (outputdir self, "GERBER-" +:+ before_dot (filename self) +:+ ".zip")
  /\ (os_path_split (outputdir self)).2 = "production_files"
  /\ (os_path_split (gerberdir self)).2 = "gerber"
  /\ outputdir self <> gerberdir self.
Proof.
  intros self.
  assert (Hname : has_slash (before_dot (filename self)) = false).
  { apply before_dot_no_slash. unfold self, Fabrication_init, os_path_split.
    pose proof (cut_last_slash_tail (GetFileName b)) as Ht.
    destruct (cut_last_slash (GetFileName b)). exact Ht. }
  assert (Hout : ends_with_slash (outputdir self) = false).
  { unfold self, Fabrication_init.
    destruct (os_path_split (GetFileName b)). cbn [outputdir].
    apply join_no_trailing_slash; [discriminate | reflexivity]. }
  assert (Hfile : forall pre post,
             has_slash pre = false -> has_slash post = false ->
             os_path_split (os_path_join (outputdir self)
                              (pre +:+ before_dot (filename self) +:+ post))
             = (outputdir self, pre +:+ before_dot (filename self) +:+ post)).
  { intros pre post Hpre Hpost. apply split_join; [|exact Hout].
    rewrite !has_slash_app, Hpre, Hname, Hpost. reflexivity. }
  split; [apply (Hfile "CPL-" ".csv"); reflexivity|].
  split; [apply (Hfile "BOM-" ".csv"); reflexivity|].
  split; [apply (Hfile "GERBER-" ".zip"); reflexivity|].
  unfold self, Fabrication_init.
  destruct (os_path_split (GetFileName b)) as [dir name].
  cbn [outputdir gerberdir].
  split; [apply split_join; reflexivity|].
  split; [apply split_join; reflexivity|].
  unfold os_path_join at 1 3. cbn [String.eqb].
  destruct (String.eqb (os_path_join dir "jlcpcb") ""
            || ends_with_slash (os_path_join dir "jlcpcb"));
    intros Heq; apply string_app_inv_head in Heq; discriminate.
Qed.

(** X15. The names of the production files keep only what precedes the
    first dot of the board file name: for a board file [stem.ext] with a
    dot-free [stem], whatever [ext] is, they are [CPL-stem.csv],
    [BOM-stem.csv] and [GERBER-stem.zip]. Board files that agree up to
    their first dot therefore share these files. *)
Theorem production_file_names (self : Fabrication) (stem ext : string) :
  filename self = stem +:+ "." +:+ ext ->
  before_dot stem = stem ->
  cpl_path self = os_path_join (outputdir self) ("CPL-" +:+ stem +:+ ".csv")
  /\ bom_path self = os_path_join (outputdir self) ("BOM-" +:+ stem +:+ ".csv")
  /\ (zip_gerber_excellon self []).1.1
     = os_path_join (outputdir self) ("GERBER-" +:+ stem +:+ ".zip").
Proof.
  intros Hname Hstem. unfold cpl_path, bom_path, zip_gerber_excellon.
  rewrite Hname, (before_dot_stem stem ext Hstem). auto.
Qed.

Lemma zip_filenames_spec (folderName : string) (filenames : list string) :
  Forall (fun filename => has_slash filename = false) filenames ->
  zip_filenames folderName filenames
  = (fun filename => (os_path_join folderName filename, filename))
      <$> List.filter archived filenames.
Proof.
  induction 1 as [|filename filenames Hname _ IH]; [reflexivity|].
  simpl. destruct (archived filename); simpl; [|exact IH].
  rewrite IH. f_equal. f_equal.
  unfold os_path_basename.
  destruct (split_join folderName filename Hname) as (Htail & _).
  unfold os_path_split in Htail.
  destruct (cut_last_slash (os_path_join folderName filename)). exact Htail.
Qed.

(** X16. When the walk yields plain file names, the archive receives
    exactly the walked files whose name ends in [gbr], [drl] or [pdf], in
    walk order, each stored under its bare file name without its folder;
    a file with another ending is never archived. *)
Theorem archive_members (self : Fabrication)
    (walk : list (string * list string)) :
  Forall (fun entry : string * list string =>
            Forall (fun filename => has_slash filename = false) entry.2) walk ->
  let members := (zip_gerber_excellon self walk).1.2 in
  members
  = (entry ← walk;
     (fun filename => (os_path_join entry.1 filename, filename))
       <$> List.filter archived entry.2)
  /\ forall filePath name,
       (filePath, name) ∈ members ->
       archived name = true
       /\ exists folderName filenames,
            (folderName, filenames) ∈ walk /\ name ∈ filenames
            /\ filePath = os_path_join folderName name.
Proof.
  intros Hwalk members.
  assert (Hmembers : members
            = (entry ← walk;
               (fun filename => (os_path_join entry.1 filename, filename))
                 <$> List.filter archived entry.2)).
  { unfold members. simpl.
    induction Hwalk as [|[folderName filenames] walk Hnames _ IH];
      [reflexivity|].
    simpl. rewrite IH, (zip_filenames_spec _ _ Hnames). reflexivity. }
  split; [exact Hmembers|].
  intros filePath name Hin. rewrite Hmembers in Hin.
  apply list_elem_of_bind in Hin as ([folderName filenames] & Hin & Hentry).
  apply list_elem_of_fmap in Hin as (filename & Heq & Hin).
  injection Heq as -> ->.
  apply list_elem_of_In, filter_In in Hin as [Hin Harch].
  split; [exact Harch|].
  exists folderName, filenames. simpl.
  repeat split; [exact Hentry | apply list_elem_of_In; exact Hin].
Qed.

(** ** The further properties on the example boards *)

(** A layer count of zero is planned like a two-layer board. *)
Lemma plot_plan_length_witness :
  plot_plan (H := kicad) 0
  = plot_plan_top (H := kicad) ++ plot_plan_bottom (H := kicad).
Proof.
  apply (plot_plan_length (H := kicad) 0); lia.
Defined.

(** With the numbering of KiCad 6 and 7 the layers of a four-layer plan
    are distinct, while a plan for 33 layers gives the id of Bottom-Copper,
    31, to an inner layer as well. *)
Lemma plan_layers_distinct_witness :
  NoDup (plan_layers (plot_plan (H := kicad) 4))
  /\ ~ NoDup (plan_layers (plot_plan (H := kicad) 33)).
Proof.
  split.
  - apply (plan_layers_distinct (H := kicad) 4); [lia|]. split.
    + apply (bool_decide_unpack _). vm_compute. exact I.
    + intros layer Hin. vm_compute in Hin.
      repeat (apply elem_of_cons in Hin as [-> | Hin]; [lia|]).
      inversion Hin.
  - intros Hnodup.
    apply (plan_layers_distinct (H := kicad) 33) in Hnodup as (_ & Hfree); [|lia].
    apply (Hfree 31); [|lia].
    vm_compute. do 4 right. left.
Defined.

(** The export on a disk with an older placement file writes what the
    export on an empty disk writes. *)
Lemma cpl_export_overwrites_witness :
  files (generate_cpl (H := kicad) (Fabrication_init resistor_board)
           resistor_parent empty_world).1.2
    !! cpl_path (Fabrication_init resistor_board)
  = files (generate_cpl (H := kicad)
             (with_corrections resistor_board overlapping_rules)
             resistor_parent stale_world).1.2
      !! cpl_path (with_corrections resistor_board overlapping_rules).
Proof.
  apply (cpl_export_overwrites (H := kicad) (Fabrication_init resistor_board)
           (with_corrections resistor_board overlapping_rules)
           resistor_parent empty_world stale_world); reflexivity.
Defined.

(** No footprint on the board: the export with the unclosed parenthesis in
    its table succeeds and writes the header only. *)
Lemma cpl_export_nothing_to_place_witness :
  (generate_cpl (H := kicad) (Fabrication_init bare_board) broken_parent
     empty_world).2 = Ok tt
  /\ files (generate_cpl (H := kicad) (Fabrication_init bare_board)
              broken_parent empty_world).1.2
       !! cpl_path (Fabrication_init bare_board)
     = Some [cpl_header].
Proof.
  apply (cpl_export_nothing_to_place (H := kicad) (Fabrication_init bare_board)
           broken_parent empty_world).
  reflexivity.
Defined.

Lemma path_join_split_witness :
  os_path_split (os_path_join "/home/u/proj" "board.kicad_pcb")
  = ("/home/u/proj", "board.kicad_pcb").
Proof.
  apply (path_join_split "/home/u/proj" "board.kicad_pcb"); reflexivity.
Defined.

Lemma production_file_names_witness :
  cpl_path (Fabrication_init dotted_board)
  = os_path_join (outputdir (Fabrication_init dotted_board)) "CPL-main.csv".
Proof.
  apply (production_file_names (Fabrication_init dotted_board)
           "main" "v2.kicad_pcb"); reflexivity.
Defined.

(** The two files named [CuTop.gbr] are both archived, under the same
    name; the text file and the CSV file are not. *)
Lemma archive_members_witness :
  (zip_gerber_excellon (Fabrication_init resistor_board) gerber_walk).1.2
  = [ ("/home/u/proj/jlcpcb/gerber/CuTop.gbr", "CuTop.gbr");
      ("/home/u/proj/jlcpcb/gerber/board.drl", "board.drl");
      ("/home/u/proj/jlcpcb/gerber/board-drl_map.pdf", "board-drl_map.pdf");
      ("/home/u/proj/jlcpcb/gerber/old/CuTop.gbr", "CuTop.gbr") ].
Proof.
  destruct (archive_members (Fabrication_init resistor_board) gerber_walk)
    as (Hmembers & _).
  - repeat constructor.
  - rewrite Hmembers. reflexivity.
Defined.

(** ** The shape of the placement rows *)

Section RowShape.
Context `{Pcbnew}.

Lemma row_of_shape (self : Fabrication) (aux_orgin : point)
    (pairs : list (part * footprint)) (rows : list (list cell)) :
  Forall2 (row_of self aux_orgin) pairs rows ->
  Forall placement_row_shape rows.
Proof.
  induction 1 as [|ptfp row pairs rows (rot & _ & ->) _ IH]; constructor;
    [|exact IH].
  unfold placement_row_shape, cpl_row. simpl.
  split; [reflexivity|].
  split; [do 3 eexists; repeat split; reflexivity|].
  split; [do 3 eexists; repeat split; reflexivity|].
  destruct (GetLayer ptfp.2 =? 0); auto.
Qed.

(** X17. Whether the export succeeds or fails, every row it leaves in the
    placement file after the header has the seven columns of the header:
    three texts, three numbers, and a layer that is [top] or [bottom]. *)
Theorem placement_rows_well_formed (self : Fabrication) (p : parent)
    (w : world) :
  exists rows,
    files (generate_cpl self p w).1.2 !! cpl_path self
    = Some (cpl_header :: rows)
    /\ Forall placement_row_shape rows.
Proof.
  destruct (generate_cpl_spec self p w) as (_ & rows & Hfile & _ & Hexp).
  exists rows. split; [exact Hfile|].
  destruct (generate_cpl self p w).2 as [u|e]; simpl in Hexp.
  - exact (row_of_shape _ _ _ _ Hexp).
  - destruct Hexp as (pre & _ & _ & _ & Hpre & _).
    exact (row_of_shape _ _ _ _ Hpre).
Qed.

End RowShape.

(** ** A pattern the engine refuses *)

Section RefusalFacts.
Context `{Pcbnew}.








End RefusalFacts.


(** ** Rounding in the rotation resolver *)

Section Binary64Claims.
Context `{Pcbnew}.

(** C5, where the code departs from it. A raw rotation within [[0, 360)]
    can come back as 360.0. On the bottom side with no matching rule, the
    raw rotation 180 + 2^-45 is mirrored to [(180 - r) % 360], whose
    remainder -2^-45 plus 360 rounds to 360.0. On the top side with a
    matching rule of offset -90, the raw rotation 90 - 2^-46 gives
    [(r + -90) % 360], which rounds to 360.0 as well. *)
Theorem fix_rotation_returns_360 (self self' : Fabrication)
    (bottom top : footprint) (pre : list (string * Z)) (regex : string)
    (post : list (string * Z)) :
  GetLayer bottom <> 0 ->
  no_match (GetValue bottom) (corrections self) ->
  no_match (GetLibItemName bottom) (corrections self) ->
  GetLayer top = 0 ->
  corrections self' = pre ++ (regex, -90) :: post ->
  no_match (GetValue top) pre ->
  re_search regex (GetValue top) = Some true ->
  ((0 <=? 0x1.6800000000001p+7) && (0x1.6800000000001p+7 <? 360))%float = true
  /\ (fix_rotation_b64 self bottom (AsDegrees 0x1.6800000000001p+7)).1
     = inr 360%float
  /\ ((0 <=? 0x1.67fffffffffffp+6) && (0x1.67fffffffffffp+6 <? 360))%float = true
  /\ (fix_rotation_b64 self' top (AsDegrees 0x1.67fffffffffffp+6)).1
     = inr 360%float
  /\ (360 <? 360)%float = false.
Proof.
  intros Hbot Hval Hpkg Htop Htab Hpre Hhit.
  apply Z.eqb_neq in Hbot.
  split; [reflexivity|]. split; [|split; [reflexivity|split; [|reflexivity]]].
  - unfold fix_rotation_b64.
    rewrite (scan_no_match _ _ Hval), (scan_no_match _ _ Hpkg), Hbot.
    reflexivity.
  - unfold fix_rotation_b64, rotate_b64.
    rewrite Htab, (scan_first_match _ _ _ _ _ Hpre Hhit), Htop.
    reflexivity.
Qed.

(** C6. The offset of a matched rule is added on the top side and
    subtracted on the bottom side, each followed by [% 360]: from rotation
    0 and offset 90 the top side gives 90 and the bottom side 270.
    Correcting on the top side and then, by the same offset, on the
    bottom side does not give the rotation back in general: from 0.1 and
    offset 90 it gives 0.09999999999999432. *)
Theorem rotate_side_sensitive (top bottom : footprint) (r : float) (d : Z)
    (c : float) :
  GetLayer top = 0 ->
  GetLayer bottom <> 0 ->
  b64_of_int d = Some c ->
  (rotate_b64 top r d).1 = inr (py_mod360 (r + c))
  /\ (rotate_b64 bottom r d).1 = inr (py_mod360 (r - c))
  /\ (rotate_b64 top 0 90).1 = inr 90%float
  /\ (rotate_b64 bottom 0 90).1 = inr 270%float
  /\ exists r' d' there back,
       ((0 <=? r') && (r' <? 360))%float = true
       /\ (rotate_b64 top r' d').1 = inr there
       /\ (rotate_b64 bottom there d').1 = inr back
       /\ (back =? r')%float = false.
Proof.
  intros Htop Hbot Hc. apply Z.eqb_neq in Hbot.
  unfold rotate_b64, int. rewrite Hc, Htop, Hbot.
  split; [reflexivity|]. split; [reflexivity|].
  split; [reflexivity|]. split; [reflexivity|].
  exists 0x1.999999999999ap-4%float, 90, 0x1.6866666666666p+6%float,
         0x1.9999999999800p-4%float.
  repeat split; vm_compute; reflexivity.
Qed.

End Binary64Claims.

Lemma fix_rotation_returns_360_witness :
  (fix_rotation_b64 (H := kicad)
     (with_corrections resistor_board [("SOT-23", 180)]) resistor_bottom
     (AsDegrees 0x1.6800000000001p+7)).1 = inr 360%float
  /\ (fix_rotation_b64 (H := kicad)
        (with_corrections resistor_board [("10k", -90)]) resistor_top
        (AsDegrees 0x1.67fffffffffffp+6)).1 = inr 360%float.
Proof.
  destruct (fix_rotation_returns_360 (H := kicad)
              (with_corrections resistor_board [("SOT-23", 180)])
              (with_corrections resistor_board [("10k", -90)])
              resistor_bottom resistor_top [] "10k" [])
    as (_ & Hbottom & _ & Htop & _).
  - simpl. lia.
  - repeat constructor.
  - repeat constructor.
  - reflexivity.
  - reflexivity.
  - constructor.
  - vm_compute. reflexivity.
  - split; [exact Hbottom | exact Htop].
Defined.

Lemma rotate_side_sensitive_witness :
  (rotate_b64 resistor_top 0 90).1 = inr 90%float
  /\ (rotate_b64 resistor_bottom 0 90).1 = inr 270%float.
Proof.
  destruct (rotate_side_sensitive resistor_top resistor_bottom 0 90 90)
    as (_ & _ & Htop & Hbottom & _).
  - reflexivity.
  - simpl. lia.
  - vm_compute. reflexivity.
  - split; [exact Htop | exact Hbottom].
Defined.

(** The scenario of the regulator in binary64: 45 degrees on the bottom
    side is mirrored to 135 and corrected by 180 to 315, with no rounding
    on the way; the same from 450 tenths of a degree. *)
Lemma sot23_rotation_b64 :
  (fix_rotation_b64 (H := kicad)
     (with_corrections sot23_board [("SOT-23", 180)]) sot23_bottom
     (AsDegrees 45)).1 = inr 315%float
  /\ (fix_rotation_b64 (H := kicad)
        (with_corrections sot23_board [("SOT-23", 180)]) sot23_bottom
        (Tenths 450)).1 = inr 315%float
  /\ py_mod360 (180 - 45) = 135%float.
Proof. repeat split; vm_compute; reflexivity. Qed.

(** The top-side resistor that no rule matches keeps its raw -90 in
    binary64 as well. *)
Lemma resistor_rotation_b64 :
  fix_rotation_b64 (H := kicad)
    (with_corrections resistor_board [("SOT-23", 180)]) resistor_top
    (AsDegrees (-90))
  = (inr (-90)%float, []).
Proof. vm_compute. reflexivity. Qed.
